(** * LiverAId risk-scoring core: a shallow embedding and its properties

    The development follows the Python sources:
    - [app.py]: [calculate_traditional_scores], [get_score_interpretation],
      [translate_risk_levels], [calculate_risks] and its nested
      [calculate_child_pugh] / [safe_int];
    - [i18n.py]: [I18nManager.get_translation] / [t];
    - [models/cirrhosis_model.py], [models/hcc_model_final.py],
      [models/nafld_model.py]: the three predictors.

    Conventions of the embedding.
    - A Python [float] (or [int]) is an exact rational [Q]; a literal such
      as [18.5] denotes its decimal value.  IEEE rounding, infinities and
      NaN are not represented, except where numpy produces them on purpose
      (see [SNonFinite]).
    - [np.sqrt], [x ** 0.5] and [np.log] are the real functions [sqrt] and
      [ln]; a value computed through them is a real number [R].
    - A [dict] with string keys is a [gmap string _].
    - A raised exception is the left injection of [pyres]; [try/except]
      is a [match] on it.
    - Trained artifacts (pickled classifiers, scalers, imputers) are opaque
      functions carried by the predictor state. *)

From Stdlib Require Import QArith Qabs Qminmax Qround Qreals Reals ZArith String List.
From Stdlib Require Import Lia Lqa Lra Psatz.
From stdpp Require Import gmap strings fin_maps.
Import ListNotations.

Local Open Scope string_scope.

(** ** Python values, exceptions and the result monad *)

Module Py.

(** Values found in [patient_data]: the form handler stores a [float]
    for every clinical field it could convert and keeps the raw text
    otherwise, so a [VStr] in a clinical field is text that [float()]
    rejects.  [VNone] is an explicit [None]. *)
Inductive pyval :=
| VNone
| VNum (q : Q)
| VStr (s : string).

Inductive exc_kind := TypeError | ValueError | AttributeError | PlainException.

(** An exception with the text [str(e)] returns. *)
Record pyexc := PyExc { exc_type : exc_kind; exc_msg : string }.

Definition pyres (A : Type) : Type := pyexc + A.

Definition ok {A} (a : A) : pyres A := inr a.
Definition raise {A} (k : exc_kind) (msg : string) : pyres A := inl (PyExc k msg).

Definition bind {A B} (m : pyres A) (k : A -> pyres B) : pyres B :=
  match m with
  | inl e => inl e
  | inr a => k a
  end.

(** [d.get(k)]: [None] when the key is absent. *)
Definition get (d : gmap string pyval) (k : string) : pyval :=
  default VNone (d !! k).

(** [d.get(k, dflt)]. *)
Definition get_default (d : gmap string pyval) (k : string) (dflt : pyval) : pyval :=
  default dflt (d !! k).

(** [float(v)].  Text kept in [patient_data] is text that [float()]
    refused once already. *)
Definition py_float (v : pyval) : pyres Q :=
  match v with
  | VNum q => ok q
  | VStr s => raise ValueError ("could not convert string to float: '" ++ s ++ "'")
  | VNone => raise TypeError "float() argument must be a string or a real number, not 'NoneType'"
  end.

(** [x > 0] for a non-[None] value; comparing text with a number raises. *)
Definition gt_zero (v : pyval) : pyres bool :=
  match v with
  | VNum q => ok (negb (Qle_bool q 0))
  | VStr _ => raise TypeError "'>' not supported between instances of 'str' and 'int'"
  | VNone => raise TypeError "'>' not supported between instances of 'NoneType' and 'int'"
  end.

(** [x is not None and x > 0], giving the number when the test holds. *)
Definition present_positive (v : pyval) : pyres (option Q) :=
  match v with
  | VNone => ok None
  | VNum q => ok (if Qle_bool q 0 then None else Some q)
  | VStr _ => raise TypeError "'>' not supported between instances of 'str' and 'int'"
  end.

(** [all(x is not None and x > 0 for x in xs)]: the generator stops at
    the first element that fails, so later elements are not examined. *)
Fixpoint all_present_positive (xs : list pyval) : pyres (option (list Q)) :=
  match xs with
  | [] => ok (Some [])
  | x :: rest =>
      bind (present_positive x) (fun r =>
        match r with
        | None => ok None
        | Some q =>
            bind (all_present_positive rest) (fun rs =>
              ok (match rs with
                  | None => None
                  | Some qs => Some (q :: qs)
                  end))
        end)
  end.

(** Boolean comparisons on floats. *)
Definition ltb (a b : Q) : bool := negb (Qle_bool b a).
Definition leb (a b : Q) : bool := Qle_bool a b.
Definition gtb (a b : Q) : bool := ltb b a.

(** [', '.join(xs)]. *)
Fixpoint join (sep : string) (xs : list string) : string :=
  match xs with
  | [] => ""
  | [x] => x
  | x :: rest => x ++ sep ++ join sep rest
  end.

End Py.

Import Py.

Notation "'do' x <- m ; k" := (Py.bind m (fun x => k))
  (at level 10, x name, m at level 100, k at level 200).

(** A score in a traditional-score dictionary: a number, a label, or a
    non-finite float (inf or nan) as numpy returns it for a division by
    zero or a square root of a negative number. *)
Inductive score :=
| SNum (x : R)
| SNonFinite
| SStr (s : string).

(** ** i18n.py *)

Module I18n.

(** [translations] maps a language code to its table, flattened to
    dot-separated key paths; [language] is the session language. *)
Record manager := {
  translations : gmap string (gmap string string);
  language : string
}.

Definition default_language : string := "tr".

Definition lookup_in (m : manager) (lang key_path : string) : option string :=
  default ∅ (translations m !! lang) !! key_path.

(** [get_translation(key_path)] without format arguments. *)
Definition get_translation (m : manager) (key_path : string) : string :=
  let lang :=
    if decide (is_Some (translations m !! language m)) then language m
    else default_language in
  match lookup_in m lang key_path with
  | Some v => v
  | None =>
      if decide (lang = default_language) then key_path
      else match lookup_in m default_language key_path with
           | Some v => v
           | None => key_path
           end
  end.

Definition t := get_translation.

End I18n.

(** ** app.py: the shared Traditional Score Calculator *)

Module TraditionalScores.

Definition missing : score := SStr "Missing Data".

(** [(age * ast) / (platelets_raw * np.sqrt(alt))] *)
Definition fib4 (age ast alt platelets : Q) : R :=
  (Q2R (age * ast) / (Q2R platelets * sqrt (Q2R alt)))%R.

(** [(ast / 40) / platelets_raw * 100] *)
Definition apri (ast platelets : Q) : R :=
  Q2R ((ast / 40) / platelets * 100).

(** [3.78 * np.log(safe_bil) + 11.2 * np.log(safe_inr)
     + 9.57 * np.log(safe_creat) + 6.43] with [safe_x = max(x, 1.0)] *)
Definition meld (total_bil inr creatinine : Q) : R :=
  let safe_bil := Qmax total_bil 1 in
  let safe_inr := Qmax inr 1 in
  let safe_creat := Qmax creatinine 1 in
  (3.78 * ln (Q2R safe_bil) + 11.2 * ln (Q2R safe_inr)
   + 9.57 * ln (Q2R safe_creat) + 6.43)%R.

Definition bmi_category (bmi : Q) : string :=
  if ltb bmi 18.5 then "Underweight"
  else if ltb bmi 25 then "Normal"
  else if ltb bmi 30 then "Overweight"
  else "Obese".

(** The four steps of the [try] block, each giving the value stored
    under its key. *)
Definition fib4_entry (patient_data : gmap string pyval) : pyres score :=
  let age := get patient_data "age" in
  let ast := get patient_data "ast" in
  let alt := get patient_data "alt" in
  let platelets_raw := get patient_data "trombosit" in
  do checked <- all_present_positive [age; ast; alt; platelets_raw];
  ok (match checked with
      | Some [a; s; l; p] => SNum (fib4 a s l p)
      | _ => missing
      end).

Definition apri_entry (patient_data : gmap string pyval) : pyres score :=
  let ast := get patient_data "ast" in
  let platelets_raw := get patient_data "trombosit" in
  do checked <- all_present_positive [ast; platelets_raw];
  ok (match checked with
      | Some [s; p] => SNum (apri s p)
      | _ => missing
      end).

Definition meld_entry (patient_data : gmap string pyval) : pyres score :=
  let total_bil := get patient_data "total_bilirubin" in
  let inr := get patient_data "inr" in
  let creatinine := get patient_data "creatinine" in
  do checked <- all_present_positive [total_bil; inr; creatinine];
  ok (match checked with
      | Some [b; i; c] => SNum (meld b i c)
      | _ => missing
      end).

Definition bmi_entry (patient_data : gmap string pyval) : pyres score :=
  let bmi := get patient_data "bmi" in
  do checked <- present_positive bmi;
  ok (match checked with
      | Some b => SStr (bmi_category b)
      | None => missing
      end).

(** The body of the [try] block. *)
Definition scores_body (patient_data : gmap string pyval) : pyres (gmap string score) :=
  let scores : gmap string score := ∅ in
  do v <- fib4_entry patient_data;
  let scores := <["FIB-4" := v]> scores in
  do v <- apri_entry patient_data;
  let scores := <["APRI" := v]> scores in
  do v <- meld_entry patient_data;
  let scores := <["MELD" := v]> scores in
  do v <- bmi_entry patient_data;
  let scores := <["BMI Category" := v]> scores in
  ok scores.

(** The dictionary assigned in the [except] branch. *)
Definition fallback_scores : gmap string score :=
  <["FIB-4" := SNum 0]> (<["APRI" := SNum 0]> (<["MELD" := SNum 0]>
    (<["BMI Category" := SStr "Unknown"]> ∅))).

Definition calculate_traditional_scores (patient_data : gmap string pyval)
  : gmap string score :=
  match scores_body patient_data with
  | inr scores => scores
  | inl _ => fallback_scores
  end.

End TraditionalScores.

(** ** app.py: the Score Interpreter *)

Module ScoreInterpreter.

Record interp := { color : string; level : string; interpretation : string }.

Definition mk (c l i : string) : interp :=
  {| color := c; level := l; interpretation := i |}.

(** ASCII characters removed by [str.strip()]. *)
Definition is_space (c : Ascii.ascii) : bool :=
  let n := Ascii.nat_of_ascii c in
  (Nat.eqb n 32 || (Nat.leb 9 n && Nat.leb n 13) || (Nat.leb 28 n && Nat.leb n 31))%bool.

(** [s.strip() == ''] *)
Fixpoint strips_to_empty (s : string) : bool :=
  match s with
  | EmptyString => true
  | String c rest => (is_space c && strips_to_empty rest)%bool
  end.

Definition rlt (x y : R) : bool := if Rlt_dec x y then true else false.
Definition rle (x y : R) : bool := if Rle_dec x y then true else false.

Section WithTranslations.
Variable i18n : I18n.manager.
Let t := I18n.t i18n.

Definition invalid_numeric : interp :=
  mk "secondary" (t "results.invalid") (t "results.unableToCalculate").

Definition interpret_fib4 (v : score) : interp :=
  match v with
  | SNum x =>
      if rlt x 1.30 then mk "success" (t "results.low") (t "results.lowProbabilityAdvancedFibrosis")
      else if rle x 2.67 then mk "warning" (t "results.intermediate") (t "results.intermediateProbability")
      else mk "danger" (t "results.high") (t "results.highProbabilityAdvancedFibrosis")
  | SNonFinite => mk "danger" (t "results.high") (t "results.highProbabilityAdvancedFibrosis")
  | SStr _ => invalid_numeric
  end.

Definition interpret_apri (v : score) : interp :=
  match v with
  | SNum x =>
      if rlt x 0.5 then mk "success" (t "results.low") (t "results.lowProbabilitySignificantFibrosis")
      else if rle x 1.5 then mk "warning" (t "results.intermediate") (t "results.intermediateProbability")
      else mk "danger" (t "results.high") (t "results.highProbabilitySignificantFibrosis")
  | SNonFinite => mk "danger" (t "results.high") (t "results.highProbabilitySignificantFibrosis")
  | SStr _ => invalid_numeric
  end.

Definition interpret_meld (v : score) : interp :=
  match v with
  | SNum x =>
      if rlt x 10 then mk "success" (t "results.low") (t "results.lowMortalityRisk")
      else if rle x 15 then mk "warning" (t "results.moderate") (t "results.moderateMortalityRisk")
      else if rle x 20 then mk "warning" (t "results.high") (t "results.highMortalityRisk")
      else mk "danger" (t "results.veryHigh") (t "results.veryHighMortalityRisk")
  | SNonFinite => mk "danger" (t "results.veryHigh") (t "results.veryHighMortalityRisk")
  | SStr _ => invalid_numeric
  end.

Definition interpret_child_pugh_score (v : score) : interp :=
  match v with
  | SNum x =>
      if rle x 6 then mk "success" "Class A" (t "results.childPughA")
      else if rle x 9 then mk "warning" "Class B" (t "results.childPughB")
      else if rle x 15 then mk "danger" "Class C" (t "results.childPughC")
      else mk "danger" (t "results.severe") (t "results.criticalLiverFunction")
  | SNonFinite => mk "danger" (t "results.severe") (t "results.criticalLiverFunction")
  | SStr _ => invalid_numeric
  end.

Definition interpret_child_pugh_class (v : score) : interp :=
  match v with
  | SStr "A" => mk "success" "Class A" (t "results.childPughA")
  | SStr "B" => mk "warning" "Class B" (t "results.childPughB")
  | SStr "C" => mk "danger" "Class C" (t "results.childPughC")
  | _ => mk "secondary" (t "results.unknown") (t "results.unableToCalculate")
  end.

Definition interpret_bmi_category (v : score) : interp :=
  match v with
  | SStr "Underweight" => mk "info" (t "results.underweight") (t "results.belowNormalWeight")
  | SStr "Normal" => mk "success" (t "results.normal") (t "results.healthyWeight")
  | SStr "Overweight" => mk "warning" (t "results.overweight") (t "results.aboveNormalWeight")
  | SStr "Obese" => mk "danger" (t "results.obese") (t "results.significantlyAboveNormalWeight")
  | _ => mk "secondary" (t "results.unknown") (t "results.unableToDetermineBMI")
  end.

(** The sentinel tests at the top of [get_score_interpretation]. *)
Definition sentinel (v : score) : option interp :=
  match v with
  | SStr s =>
      if String.eqb s "Missing Data" then
        Some (mk "secondary" (t "results.missing") "Required parameters not provided")
      else if String.eqb s "Invalid Data" then
        Some (mk "secondary" (t "results.invalid") "Invalid parameter values")
      else if strips_to_empty s then
        Some (mk "secondary" (t "results.unknown") (t "results.unableToCalculate"))
      else None
  | _ => None
  end.

Definition get_score_interpretation (score_name : string) (score_value : score) : interp :=
  match sentinel score_value with
  | Some i => i
  | None =>
      if String.eqb score_name "FIB-4" then interpret_fib4 score_value
      else if String.eqb score_name "APRI" then interpret_apri score_value
      else if String.eqb score_name "MELD" then interpret_meld score_value
      else if String.eqb score_name "Child-Pugh Score" then interpret_child_pugh_score score_value
      else if String.eqb score_name "Child-Pugh Class" then interpret_child_pugh_class score_value
      else if String.eqb score_name "BMI Category" then interpret_bmi_category score_value
      else mk "secondary" (t "results.unknown") (t "results.noInterpretationAvailable")
  end.

End WithTranslations.

End ScoreInterpreter.

(** ** app.py: Child-Pugh, nested in [calculate_risks] *)

Module ChildPugh.

Definition albumin_score (albumin : Q) : Z :=
  if gtb albumin 3.5 then 1
  else if (leb 2.8 albumin && leb albumin 3.5)%bool then 2
  else 3.

Definition bilirubin_score (bilirubin : Q) : Z :=
  if ltb bilirubin 2 then 1
  else if (leb 2 bilirubin && leb bilirubin 3)%bool then 2
  else 3.

Definition inr_score (inr : Q) : Z :=
  if ltb inr 1.7 then 1
  else if (leb 1.7 inr && leb inr 2.3)%bool then 2
  else 3.

Definition class_of (total : Z) : string :=
  if (total <=? 6)%Z then "A"
  else if ((7 <=? total) && (total <=? 9))%bool%Z then "B"
  else "C".

Record result := { cp_score : Z; cp_class : string }.

(** [ascites] and [encephalopathy] arrive as integers ([safe_int]). *)
Definition calculate_child_pugh (albumin bilirubin inr : Q) (ascites encephalopathy : Z)
  : result :=
  let alb_score := albumin_score albumin in
  let bil_score := bilirubin_score bilirubin in
  let inr_score := inr_score inr in
  let ascites_score := (ascites + 1)%Z in
  let enceph_score := (encephalopathy + 1)%Z in
  let total := (alb_score + bil_score + inr_score + ascites_score + enceph_score)%Z in
  {| cp_score := total; cp_class := class_of total |}.

(** [int(x)] on a float truncates towards zero. *)
Definition py_int (q : Q) : Z :=
  if Qle_bool 0 q then Qfloor q else Qceiling q.

(** [safe_int]: 0 when [int(val)] raises [ValueError] or [TypeError]. *)
Definition safe_int (val : pyval) : Z :=
  match val with
  | VNum q => py_int q
  | VStr _ | VNone => 0%Z
  end.

End ChildPugh.

(** ** Trained artifacts *)

Module Sklearn.

(** A fitted binary classifier: [predict_proba(X)[0]] as the pair of
    class probabilities, and [predict(X)[0]]. *)
Record classifier := {
  predict_proba : list Q -> Q * Q;
  predict : list Q -> Z
}.

(** A fitted transformer ([StandardScaler], imputer): [transform] on
    one row. *)
Definition transformer := list Q -> list Q.

(** What [os.path.exists] and [joblib.load] find for one file. *)
Inductive artifact (A : Type) :=
| Absent
| Unreadable
| Loaded (a : A).
Arguments Absent {A}.
Arguments Unreadable {A}.
Arguments Loaded {A} a.

Definition exists_ {A} (f : artifact A) : bool :=
  match f with Absent => false | _ => true end.

End Sklearn.

Import Sklearn.

(** Values stored in a predictor's result dictionary.  [RNarrative] is
    the text assembled by a predictor's [_generate_interpretation], which
    is display text and is not modelled. *)
Inductive rval :=
| RNum (q : Q)
| RInt (z : Z)
| RStr (s : string)
| RBool (b : bool)
| RScores (d : gmap string score)
| RNarrative.

(** [round(x, ndigits)] on a real: nearest multiple of [10^-ndigits],
    ties to even. *)
Definition round_half_even (x : R) : Z :=
  let f := Int_part x in
  let frac := (x - IZR f)%R in
  if Rlt_dec frac (1/2) then f
  else if Rlt_dec (1/2) frac then (f + 1)%Z
  else if Z.even f then f else (f + 1)%Z.

Definition py_round (x : R) (ndigits : nat) : R :=
  (IZR (round_half_even (x * 10 ^ ndigits)) / 10 ^ ndigits)%R.

(** The risk bands shared by the cirrhosis and HCC predictors. *)
Definition risk_level_color (risk_probability : Q) : string * string :=
  if ltb risk_probability 0.3 then ("Low", "success")
  else if ltb risk_probability 0.7 then ("Moderate", "warning")
  else ("High", "danger").

(** The loop most predictors run over their field mapping: copy present
    fields under the model's name, collect the absent ones. *)
Fixpoint map_fields (mapping : list (string * string)) (patient_data : gmap string pyval)
  (mapped : gmap string pyval) (missing_fields : list string)
  : gmap string pyval * list string :=
  match mapping with
  | [] => (mapped, missing_fields)
  | (form_field, model_field) :: rest =>
      match patient_data !! form_field with
      | Some value => map_fields rest patient_data (<[model_field := value]> mapped) missing_fields
      | None => map_fields rest patient_data mapped (missing_fields ++ [form_field])
      end
  end.

(** [[float(d[f]) for f in fields]]; a field absent from [d] is a
    [KeyError], reported here as a plain exception. *)
Fixpoint float_row (d : gmap string pyval) (fields : list string) : pyres (list Q) :=
  match fields with
  | [] => ok []
  | f :: rest =>
      match d !! f with
      | None => raise PlainException ("'" ++ f ++ "'")
      | Some v =>
          do q <- py_float v;
          do qs <- float_row d rest;
          ok (q :: qs)
      end
  end.

Definition rlt (x y : R) : bool := ScoreInterpreter.rlt x y.

(** ** models/cirrhosis_model.py *)

Module Cirrhosis.

Definition xgb_feature_names : list string :=
  ["age"; "gender"; "ast"; "alt"; "platelet"; "albumin"; "bmi";
   "inr"; "total_bilirubin"; "creatin"; "direct_bilirubin"; "alp"].

Definition legacy_feature_names : list string :=
  ["Age"; "Gender (Female=1, Male=2)"; "AST"; "ALT"; "Trombosit"; "Albumin";
   "Body Mass Index"; "INR"; "Total Bilirubin"; "Creatinine"; "Direct Bilirubin"; "ALP"].

Definition field_mapping : list (string * string) :=
  [("age", "age"); ("gender", "gender"); ("ast", "ast"); ("alt", "alt");
   ("trombosit", "platelet"); ("albumin", "albumin"); ("bmi", "bmi"); ("inr", "inr");
   ("total_bilirubin", "total_bilirubin"); ("creatinine", "creatin");
   ("direct_bilirubin", "direct_bilirubin"); ("alp", "alp")].

Definition legacy_field_mapping : list (string * string) :=
  [("age", "Age"); ("gender", "Gender (Female=1, Male=2)"); ("ast", "AST"); ("alt", "ALT");
   ("trombosit", "Trombosit"); ("albumin", "Albumin"); ("bmi", "Body Mass Index");
   ("inr", "INR"); ("total_bilirubin", "Total Bilirubin"); ("creatinine", "Creatinine");
   ("direct_bilirubin", "Direct Bilirubin"); ("alp", "ALP")].

(** The six files [load_model] looks for. *)
Record files := {
  model_xgb : artifact classifier;
  scaler_xgb : artifact transformer;
  imputer_xgb : artifact transformer;
  model_pkl : artifact classifier;
  scaler_pkl : artifact transformer;
  imputer_pkl : artifact transformer
}.

(** The predictor after [__init__]: [model_type] with what was loaded.
    [feature_names] is assigned in the first two cases only. *)
Inductive state :=
| XGBoost (model : classifier)
| Legacy (model : classifier) (scaler imputer : transformer)
| RuleBased.

Definition load_model (fs : files) : state :=
  if (exists_ (model_xgb fs) && exists_ (scaler_xgb fs) && exists_ (imputer_xgb fs))%bool then
    match model_xgb fs, scaler_xgb fs, imputer_xgb fs with
    | Loaded m, Loaded _, Loaded _ => XGBoost m
    | _, _, _ => RuleBased
    end
  else if (exists_ (model_pkl fs) && exists_ (scaler_pkl fs) && exists_ (imputer_pkl fs))%bool then
    match model_pkl fs, scaler_pkl fs, imputer_pkl fs with
    | Loaded m, Loaded s, Loaded i => Legacy m s i
    | _, _, _ => RuleBased
    end
  else RuleBased.

Definition required_for_fib4 : list string := ["Age"; "AST"; "ALT"; "Trombosit"].
Definition required_for_apri : list string := ["AST"; "Trombosit"].
Definition required_for_meld : list string := ["INR"; "Total Bilirubin"; "Creatinine"].

Definition missing_of (mapped_data : gmap string Q) (required : list string) : string :=
  "Missing fields: " ++
  join ", " (List.filter (fun f => bool_decide (mapped_data !! f = None)) required).

(** [3.78 * np.log(total_bil) + 11.2 * np.log(inr) + 9.57 * np.log(creatinine) + 6.43]
    then [max(6, min(40, meld))].  numpy gives nan for the logarithm of
    a negative number and -inf at zero; [min(40, nan)] is 40 and
    [max(6, -inf)] is 6. *)
Definition meld_clamped (total_bil inr creatinine : Q) : R :=
  if (ltb total_bil 0 || ltb inr 0 || ltb creatinine 0)%bool then 40%R
  else if (Qle_bool total_bil 0 || Qle_bool inr 0 || Qle_bool creatinine 0)%bool then 6%R
  else
    Rmax 6 (Rmin 40 (3.78 * ln (Q2R total_bil) + 11.2 * ln (Q2R inr)
                     + 9.57 * ln (Q2R creatinine) + 6.43)).

(** [_calculate_traditional_scores], on mapped data that passed the
    [float()] loop of [predict_risk]. *)
Definition _calculate_traditional_scores (mapped_data : gmap string Q) : gmap string score :=
  let scores : gmap string score := ∅ in
  let scores :=
    match mapped_data !! "Age", mapped_data !! "AST", mapped_data !! "ALT",
          mapped_data !! "Trombosit" with
    | Some age, Some ast, Some alt, Some platelet =>
        if (gtb platelet 0 && gtb alt 0)%bool then
          let fib4 := (Q2R (age * ast) / (Q2R platelet * sqrt (Q2R alt)))%R in
          let scores := <["FIB-4" := SNum (py_round fib4 2)]> scores in
          <["FIB-4 Interpretation" :=
              SStr (if rlt fib4 1.45 then "Low probability of advanced fibrosis"
                    else if rlt fib4 3.25 then "Intermediate probability - further evaluation needed"
                    else "High probability of advanced fibrosis")]> scores
        else scores
    | _, _, _, _ => <["FIB-4 Error" := SStr (missing_of mapped_data required_for_fib4)]> scores
    end in
  let scores :=
    match mapped_data !! "AST", mapped_data !! "Trombosit" with
    | Some ast, Some platelet =>
        if gtb platelet 0 then
          let apri := Q2R ((ast / 40) / (platelet / 1000) * 100) in
          let scores := <["APRI" := SNum (py_round apri 2)]> scores in
          <["APRI Interpretation" :=
              SStr (if rlt apri 0.5 then "Low probability of significant fibrosis"
                    else if rlt apri 1.5 then "Intermediate probability"
                    else "High probability of significant fibrosis")]> scores
        else scores
    | _, _ => <["APRI Error" := SStr (missing_of mapped_data required_for_apri)]> scores
    end in
  match mapped_data !! "INR", mapped_data !! "Total Bilirubin", mapped_data !! "Creatinine" with
  | Some inr_value, Some total_bil, Some creatinine =>
      let meld := meld_clamped total_bil inr_value creatinine in
      let scores := <["MELD" := SNum (py_round meld 1)]> scores in
      <["MELD Interpretation" :=
          SStr (if rlt meld 10 then "Low mortality risk"
                else if rlt meld 15 then "Moderate mortality risk"
                else if rlt meld 20 then "High mortality risk"
                else "Very high mortality risk")]> scores
  | _, _, _ => <["MELD Error" := SStr (missing_of mapped_data required_for_meld)]> scores
  end.

(** The dictionary returned by the [except] branch of [predict_risk]. *)
Definition error_result (e : pyexc) : gmap string rval :=
  list_to_map
    [("disease", RStr "Cirrhosis"); ("risk_probability", RNum 0.5);
     ("risk_percentage", RNum 50); ("risk_class", RInt 0);
     ("risk_level", RStr "Unknown"); ("risk_color", RStr "secondary");
     ("traditional_scores", RScores ∅); ("model_type", RStr "Error Fallback");
     ("interpretation", RStr ("Error in prediction: " ++ exc_msg e));
     ("confidence", RNum 0)].

Section Predict.
(** The order in which CPython iterates [set(missing_fields)]; it
    depends on string hashing and is left open. *)
Variable set_order : list string -> list string.

(** Everything after the field loop, once [feature_names] is known. *)
Definition predict_with (names : list string) (model_type : string)
  (run : list Q -> Q * Z)
  (mapped_data : gmap string pyval) (missing_fields : list string)
  : pyres (gmap string rval) :=
  match missing_fields with
  | _ :: _ =>
      raise ValueError ("Missing required fields for Cirrhosis prediction: "
                        ++ join ", " (set_order missing_fields))
  | [] =>
      do features <- float_row mapped_data names;
      let '(risk_probability, risk_class) := run features in
      let numeric : gmap string Q := list_to_map (zip names features) in
      let traditional_scores := _calculate_traditional_scores numeric in
      let '(risk_level, risk_color) := risk_level_color risk_probability in
      ok (list_to_map
            [("disease", RStr "Cirrhosis"); ("risk_probability", RNum risk_probability);
             ("risk_percentage", RNum (risk_probability * 100));
             ("risk_class", RInt risk_class);
             ("risk_level", RStr risk_level); ("risk_color", RStr risk_color);
             ("traditional_scores", RScores traditional_scores);
             ("model_type", RStr model_type);
             ("interpretation", RNarrative);
             ("confidence", RNum (Qabs (risk_probability - 0.5) * 2))])
  end.

Definition predict_risk_body (st : state) (patient_data : gmap string pyval)
  : pyres (gmap string rval) :=
  match st with
  | XGBoost model =>
      let '(mapped_data, missing_fields) := map_fields field_mapping patient_data ∅ [] in
      predict_with xgb_feature_names "Raw XGBoost Model (No Preprocessing)"
        (fun X => (snd (predict_proba model X), predict model X))
        mapped_data missing_fields
  | Legacy model scaler imputer =>
      let '(mapped_data, missing_fields) := map_fields legacy_field_mapping patient_data ∅ [] in
      predict_with legacy_feature_names "Enhanced Legacy Trained Model"
        (fun X => let X_scaled := scaler (imputer X) in
                  (snd (predict_proba model X_scaled), predict model X_scaled))
        mapped_data missing_fields
  | RuleBased =>
      (* [self.feature_names] was never assigned: the loop that prints
         the mapped fields raises before anything else is checked *)
      raise AttributeError "'CirrhosisRiskModel' object has no attribute 'feature_names'"
  end.

Definition predict_risk (st : state) (patient_data : gmap string pyval) : gmap string rval :=
  match predict_risk_body st patient_data with
  | inr result => result
  | inl e => error_result e
  end.

(** [predict_cirrhosis_risk]: a fresh predictor per call. *)
Definition predict_cirrhosis_risk (fs : files) (patient_data : gmap string pyval)
  : gmap string rval :=
  predict_risk (load_model fs) patient_data.

End Predict.

End Cirrhosis.

(** ** models/hcc_model_final.py *)

Module HCC.

Definition categorical_cols : list string := ["Gender"; "Obesity"].

Definition all_feature_names : list string :=
  ["Age"; "Gender"; "AST"; "ALT"; "Albumin"; "Creatinine"; "INR";
   "Trombosit"; "Total_Bil"; "Dir_Bil"; "Obesity"; "ALP"; "AFP"].

(** [[col for col in all_feature_names if col not in categorical_cols]] *)
Definition numerical_cols : list string :=
  List.filter (fun col => negb (bool_decide (col ∈ categorical_cols))) all_feature_names.

Definition field_mapping : list (string * string) :=
  [("age", "Age"); ("gender", "Gender"); ("ast", "AST"); ("alt", "ALT");
   ("albumin", "Albumin"); ("creatinine", "Creatinine"); ("inr", "INR");
   ("trombosit", "Trombosit"); ("total_bilirubin", "Total_Bil");
   ("direct_bilirubin", "Dir_Bil"); ("obesity", "Obesity"); ("alp", "ALP");
   ("afp", "AFP")].

Record files := {
  svm_best_model : artifact classifier;
  hcc_scaler : artifact transformer
}.

Record state := { model : option classifier; scaler : option transformer }.

Definition load_model (fs : files) : state :=
  match svm_best_model fs with
  | Absent => {| model := None; scaler := None |}
  | Unreadable => {| model := None; scaler := None |}
  | Loaded m =>
      match hcc_scaler fs with
      | Absent => {| model := Some m; scaler := None |}
      | Unreadable => {| model := None; scaler := None |}
      | Loaded s => {| model := Some m; scaler := Some s |}
      end
  end.

(** The loop over [field_mapping.items()]. *)
Fixpoint collect_features (mapping : list (string * string))
  (patient_data : gmap string pyval)
  (features : gmap string pyval) (missing_fields : list string)
  : pyres (gmap string pyval * list string) :=
  match mapping with
  | [] => ok (features, missing_fields)
  | (form_field, dataset_col) :: rest =>
      match patient_data !! form_field with
      | Some value =>
          do value' <- (if String.eqb dataset_col "Trombosit"
                        then do q <- py_float value; ok (VNum (q * 1000))
                        else ok value);
          collect_features rest patient_data (<[dataset_col := value']> features) missing_fields
      | None =>
          if String.eqb dataset_col "AFP" then
            collect_features rest patient_data (<[dataset_col := VNum 0]> features) missing_fields
          else if String.eqb dataset_col "Obesity" then
            collect_features rest patient_data (<[dataset_col := VNum 0]> features) missing_fields
          else
            collect_features rest patient_data features (missing_fields ++ [form_field])
      end
  end.

(** [X_processed[numerical_cols] = scaler.transform(df[numerical_cols])]
    on the single row, the other columns kept as they are. *)
Definition preprocess (sc : transformer) (features : gmap string pyval) : pyres (list Q) :=
  do numerical <- float_row features numerical_cols;
  let scaled := sc numerical in
  if negb (Nat.eqb (length scaled) (length numerical_cols)) then
    raise ValueError "Columns must be same length as key"
  else
    let X_processed : gmap string pyval :=
      list_to_map (zip numerical_cols (VNum <$> scaled)) ∪ features in
    float_row X_processed all_feature_names.

Definition num (features : gmap string Q) (k : string) (dflt : Q) : Q :=
  default dflt (features !! k).

(** [_calculate_traditional_scores] on numeric features. *)
Definition _calculate_traditional_scores (features : gmap string Q) : gmap string score :=
  let age := num features "Age" 0 in
  let ast := num features "AST" 0 in
  let alt := num features "ALT" 0 in
  let platelets := num features "Trombosit" 0 in
  let scores : gmap string score :=
    <["FIB-4" := if (gtb platelets 0 && gtb alt 0)%bool
                 then SNum (Q2R (age * ast) / (Q2R platelets * sqrt (Q2R alt)))
                 else SNum 0]> ∅ in
  let scores :=
    <["APRI" := if gtb platelets 0
                then SNum (Q2R (((ast / 40) / platelets) * 100))
                else SNum 0]> scores in
  let inr := Qmax (num features "INR" 1) 1 in
  let total_bil := Qmax (num features "Total_Bil" 1) 1 in
  let creatinine := Qmax (num features "Creatinine" 1) 1 in
  let scores :=
    <["MELD" := SNum (3.78 * ln (Q2R total_bil) + 11.2 * ln (Q2R inr)
                      + 9.57 * ln (Q2R creatinine) + 6.43)]> scores in
  let afp := num features "AFP" 0 in
  <["AFP Risk" := SStr (if ltb afp 10 then "Low"
                        else if ltb afp 200 then "Moderate" else "High")]> scores.

Definition error_result (e : pyexc) : gmap string rval :=
  list_to_map
    [("disease", RStr "HCC (Hepatocellular Carcinoma)"); ("error", RStr (exc_msg e));
     ("risk_probability", RNum 0); ("risk_percentage", RNum 0); ("risk_class", RInt 0);
     ("risk_level", RStr "Error"); ("risk_color", RStr "secondary");
     ("traditional_scores", RScores ∅); ("model_type", RStr "Error");
     ("interpretation", RStr ("Error in calculation: " ++ exc_msg e));
     ("has_afp", RBool false)].

Definition has_afp (patient_data : gmap string pyval) : bool :=
  match patient_data !! "afp" with
  | Some (VNum q) => gtb q 0
  | _ => false
  end.

Definition predict_risk_body (st : state) (patient_data : gmap string pyval)
  : pyres (gmap string rval) :=
  match model st, scaler st with
  | Some clf, Some sc =>
      do collected <- collect_features field_mapping patient_data ∅ [];
      let '(features, missing_fields) := collected in
      match missing_fields with
      | _ :: _ =>
          raise ValueError ("Missing required fields for HCC prediction: "
                            ++ join ", " missing_fields)
      | [] =>
          do X_processed <- preprocess sc features;
          let risk_probability := (1 - snd (predict_proba clf X_processed))%Q in
          let risk_class := predict clf X_processed in
          do row <- float_row features all_feature_names;
          let traditional_scores :=
            _calculate_traditional_scores (list_to_map (zip all_feature_names row)) in
          let '(risk_level, risk_color) := risk_level_color risk_probability in
          ok (list_to_map
                [("disease", RStr "HCC (Hepatocellular Carcinoma)");
                 ("risk_probability", RNum risk_probability);
                 ("risk_percentage", RNum (risk_probability * 100));
                 ("risk_class", RInt risk_class);
                 ("risk_level", RStr risk_level); ("risk_color", RStr risk_color);
                 ("traditional_scores", RScores traditional_scores);
                 ("model_type", RStr "SVM Trained Model (Standardized)");
                 ("interpretation", RNarrative);
                 ("has_afp", RBool (has_afp patient_data))])
      end
  | _, _ => raise PlainException "Model or scaler not loaded properly"
  end.

Definition predict_risk (st : state) (patient_data : gmap string pyval) : gmap string rval :=
  match predict_risk_body st patient_data with
  | inr result => result
  | inl e => error_result e
  end.

(** [predict_hcc_risk]: a fresh predictor per call. *)
Definition predict_hcc_risk (fs : files) (patient_data : gmap string pyval)
  : gmap string rval :=
  predict_risk (load_model fs) patient_data.

End HCC.

(** ** models/nafld_model.py *)

Module NAFLD.

Local Open Scope Q_scope.

Definition feature_names : list string :=
  ["Age"; "Gender (Female=1, Male=2)"; "AST"; "ALT"; "Trombosit"; "Albumin";
   "Body Mass Index"; "INR"; "Total Bilirubin"; "Creatinine"; "Direct Bilirubin"; "ALP"].

Definition field_mapping : list (string * string) :=
  [("age", "Age"); ("gender", "Gender (Female=1, Male=2)"); ("ast", "AST"); ("alt", "ALT");
   ("trombosit", "Trombosit"); ("albumin", "Albumin"); ("bmi", "Body Mass Index");
   ("inr", "INR"); ("total_bilirubin", "Total Bilirubin"); ("creatinine", "Creatinine");
   ("direct_bilirubin", "Direct Bilirubin"); ("alp", "ALP")].

Definition load_model (catboost_model : artifact classifier) : option classifier :=
  match catboost_model with
  | Loaded m => Some m
  | Absent | Unreadable => None
  end.

(** [float(patient_data.get(Upper, patient_data.get(lower, 0)))] *)
Definition field (patient_data : gmap string pyval) (upper lower : string) : pyres Q :=
  py_float (get_default patient_data upper (get_default patient_data lower (VNum 0))).

(** Which arm of the platelet test of [_mock_classification] runs. *)
Inductive platelet_branch := Below150 | Below100 | NoPlateletRule.

(** [if platelets < 150: ... elif platelets < 100: ...] *)
Definition platelet_branch_of (platelets : Q) : platelet_branch :=
  if ltb platelets 150 then Below150
  else if ltb platelets 100 then Below100
  else NoPlateletRule.

Definition platelet_weight (b : platelet_branch) : Q :=
  match b with
  | Below150 => 0.2
  | Below100 => 0.3
  | NoPlateletRule => 0
  end.

(** The additive score of [_mock_classification]. *)
Definition mock_score (age bmi ast alt platelets albumin inr : Q) : Q :=
  let score := 0 in
  let score := if gtb age 50 then score + 0.3
               else if gtb age 40 then score + 0.2 else score in
  let score := if gtb bmi 35 then score + 0.4
               else if gtb bmi 30 then score + 0.3
               else if gtb bmi 25 then score + 0.2 else score in
  let score := if (gtb ast 80 || gtb alt 80)%bool then score + 0.4
               else if (gtb ast 40 || gtb alt 40)%bool then score + 0.3
               else if (gtb ast 30 || gtb alt 30)%bool then score + 0.2 else score in
  let score := if (gtb ast 0 && gtb alt 0)%bool then
                 let ast_alt_ratio := ast / alt in
                 if gtb ast_alt_ratio 1.5 then score + 0.3
                 else if gtb ast_alt_ratio 1.0 then score + 0.2 else score
               else score in
  let score := score + platelet_weight (platelet_branch_of platelets) in
  let score := if ltb albumin 3.5 then score + 0.2
               else if ltb albumin 4.0 then score + 0.1 else score in
  let score := if gtb inr 1.3 then score + 0.2
               else if gtb inr 1.1 then score + 0.1 else score in
  score.

(** [_mock_classification]: (classification, description, color, confidence). *)
Definition _mock_classification (patient_data : gmap string pyval)
  : pyres (string * string * string * Q) :=
  do age <- field patient_data "Age" "age";
  do bmi <- field patient_data "BMI" "bmi";
  do ast <- field patient_data "AST" "ast";
  do alt <- field patient_data "ALT" "alt";
  do platelets <- field patient_data "Trombosit" "trombosit";
  do albumin <- field patient_data "Albumin" "albumin";
  do inr <- field patient_data "INR" "inr";
  let score := mock_score age bmi ast alt platelets albumin inr in
  if gtb score 0.6 then
    ok ("NASH", "Non-Alcoholic Steatohepatitis (Inflammatory)", "danger",
        Qmin (score * 100) 95)
  else
    ok ("NAFL", "Non-Alcoholic Fatty Liver (Simple Steatosis)", "warning",
        Qmin ((1 - score) * 100) 95).

Definition bmi_category (bmi : Q) : string :=
  if ltb bmi 18.5 then "Underweight"
  else if ltb bmi 25 then "Normal"
  else if ltb bmi 30 then "Overweight"
  else "Obese".

(** The [try] block of [_calculate_traditional_scores]. *)
Definition scores_body (patient_data : gmap string pyval) : pyres (gmap string score) :=
  do age <- field patient_data "Age" "age";
  do bmi <- field patient_data "BMI" "bmi";
  let diabetes : Q := 0 in
  do ast <- field patient_data "AST" "ast";
  do alt <- field patient_data "ALT" "alt";
  do platelets_raw <- field patient_data "Trombosit" "trombosit";
  let platelets := Qmax platelets_raw 1 in
  do albumin <- field patient_data "Albumin" "albumin";
  let ast_alt_ratio := ast / Qmax alt 1 in
  let nfs := - 1.675 + 0.037 * age + 0.094 * bmi + 1.13 * diabetes
             + 0.99 * ast_alt_ratio - 0.013 * platelets - 0.66 * albumin in
  let scores : gmap string score := <["NFS" := SNum (Q2R nfs)]> ∅ in
  let fib4 := if Qle_bool alt 0 then SNonFinite
              else SNum (Q2R (age * ast) / (Q2R platelets * sqrt (Q2R alt))) in
  let scores := <["FIB-4" := fib4]> scores in
  let apri := ((ast / 40) / platelets) * 100 in
  let scores := <["APRI" := SNum (Q2R apri)]> scores in
  ok (<["BMI_Category" := SStr (bmi_category bmi)]> scores).

(** Nothing is stored before the last [float()] call, so a raised
    exception leaves the dictionary empty. *)
Definition _calculate_traditional_scores (patient_data : gmap string pyval)
  : gmap string score :=
  match scores_body patient_data with
  | inr scores => scores
  | inl _ => ∅
  end.

(** The [float()] calls of [_generate_interpretation], the only steps
    of it that can raise. *)
Definition _generate_interpretation (patient_data : gmap string pyval) : pyres rval :=
  do _bmi <- field patient_data "BMI" "bmi";
  do _ast <- field patient_data "AST" "ast";
  do _alt <- field patient_data "ALT" "alt";
  ok RNarrative.

Definition error_result (e : pyexc) : gmap string rval :=
  list_to_map
    [("disease", RStr "MAFLD Classification"); ("error", RStr (exc_msg e));
     ("classification", RStr "Error");
     ("classification_description", RStr "Error in classification");
     ("confidence", RNum 0); ("prediction_class", RInt 0);
     ("risk_color", RStr "secondary"); ("traditional_scores", RScores ∅);
     ("model_type", RStr "Error");
     ("interpretation", RStr ("Error in calculation: " ++ exc_msg e))].

Definition predict_risk_body (model : option classifier) (patient_data : gmap string pyval)
  : pyres (gmap string rval) :=
  let '(mapped_data, _) := map_fields field_mapping patient_data ∅ [] in
  let missing_fields :=
    List.filter (fun f => bool_decide (mapped_data !! f = None)) feature_names in
  match missing_fields with
  | _ :: _ =>
      raise ValueError ("Missing required fields for NAFLD prediction: "
                        ++ join ", " missing_fields)
  | [] =>
      do features <- float_row mapped_data feature_names;
      do outcome <-
        match model with
        | Some clf =>
            let prediction := predict clf features in
            let probabilities := predict_proba clf features in
            if (prediction =? 1)%Z then
              ok ("NAFL", "Non-Alcoholic Steatohepatitis (Inflammatory)", "warning",
                  fst probabilities * 100, prediction, "CatBoost Trained Model")
            else
              ok ("NASH", "Non-Alcoholic Fatty Liver (Simple Steatosis)", "danger",
                  snd probabilities * 100, prediction, "CatBoost Trained Model")
        | None =>
            do mock <- _mock_classification patient_data;
            let '(classification, description, risk_color, confidence) := mock in
            ok (classification, description, risk_color, confidence, 1%Z,
                "Rule-based Classification")
        end;
      let '(classification, description, risk_color, confidence, prediction_class, model_type) :=
        outcome in
      let traditional_scores := _calculate_traditional_scores patient_data in
      do interpretation <- _generate_interpretation patient_data;
      ok (list_to_map
            [("disease", RStr "MAFLD Classification");
             ("classification", RStr classification);
             ("classification_description", RStr description);
             ("confidence", RNum confidence);
             ("prediction_class", RInt prediction_class);
             ("risk_color", RStr risk_color);
             ("traditional_scores", RScores traditional_scores);
             ("model_type", RStr model_type);
             ("interpretation", interpretation)])
  end.

Definition predict_risk (model : option classifier) (patient_data : gmap string pyval)
  : gmap string rval :=
  match predict_risk_body model patient_data with
  | inr result => result
  | inl e => error_result e
  end.

(** [predict_nafld_classification]: a fresh predictor per call. *)
Definition predict_nafld_classification (catboost_model : artifact classifier)
  (patient_data : gmap string pyval) : gmap string rval :=
  predict_risk (load_model catboost_model) patient_data.

End NAFLD.

(** ** app.py: the Result Composer, [calculate_risks]

    The model starts from [patient_data], the dictionary the view builds
    from the submitted form; the session writes and the template
    rendering are left out.  The view either renders an assessment or
    ends with a bare [return], which hands [None] to Flask (Flask then
    fails the request: a view must not return [None]). *)

Module Composer.

Record environment := {
  i18n : I18n.manager;
  cirrhosis_files : Cirrhosis.files;
  hcc_files : HCC.files;
  nafld_catboost : artifact classifier;
  (** iteration order of a Python [set] of strings *)
  set_order : list string -> list string
}.

(** [for field in fields: if field in patient_data: d[field] = patient_data[field]] *)
Definition select_fields (fields : list string) (patient_data : gmap string pyval)
  : gmap string pyval :=
  foldl (fun d field =>
           match patient_data !! field with
           | Some v => <[field := v]> d
           | None => d
           end) ∅ fields.

Definition cirrhosis_fields : list string :=
  ["age"; "gender"; "ast"; "alt"; "trombosit"; "albumin"; "bmi"; "inr";
   "total_bilirubin"; "creatinine"; "direct_bilirubin"; "alp"].

Definition hcc_fields : list string :=
  ["age"; "gender"; "ast"; "alt"; "albumin"; "creatinine"; "inr"; "trombosit";
   "total_bilirubin"; "direct_bilirubin"; "obesity"; "alp"].

Definition nafld_fields : list string := cirrhosis_fields.

(** The entry an [except] handler of the view stores for a predictor
    that raised. *)
Definition handler_entry (disease level_key : string) (e : pyexc) : gmap string rval :=
  list_to_map
    [("disease", RStr disease); ("error", RStr (exc_msg e));
     (level_key, RStr "Error"); ("risk_color", RStr "secondary")].

(** [try: results[k] = predict(data) except Exception as e: results[k] = {...}] *)
Definition try_predict (disease level_key : string) (call : pyres (gmap string rval))
  : gmap string rval :=
  match call with
  | inr result => result
  | inl e => handler_entry disease level_key e
  end.

(** Lines 497-556: the three inputs and the three guarded calls.  The
    predictors catch their own exceptions and always return a
    dictionary, so each call is [ok]. *)
Definition disease_results (env : environment) (patient_data : gmap string pyval)
  : gmap string (gmap string rval) :=
  let cirrhosis_data := select_fields cirrhosis_fields patient_data in
  let hcc_data := select_fields (hcc_fields ++ ["afp"]) patient_data in
  let nafld_data := select_fields nafld_fields patient_data in
  let results : gmap string (gmap string rval) := ∅ in
  let results :=
    <["cirrhosis" := try_predict "Cirrhosis" "risk_level"
        (ok (Cirrhosis.predict_cirrhosis_risk (set_order env) (cirrhosis_files env)
               cirrhosis_data))]> results in
  let results :=
    <["hcc" := try_predict "HCC (Hepatocellular Carcinoma)" "risk_level"
        (ok (HCC.predict_hcc_risk (hcc_files env) hcc_data))]> results in
  <["nafld" := try_predict "MAFLD Classification" "classification"
      (ok (NAFLD.predict_nafld_classification (nafld_catboost env) nafld_data))]> results.

Definition translation_map (m : I18n.manager) : gmap string string :=
  list_to_map
    [("Low", I18n.t m "results.low"); ("Moderate", I18n.t m "results.moderate");
     ("High", I18n.t m "results.high"); ("Intermediate", I18n.t m "results.intermediate");
     ("Very High", I18n.t m "results.veryHigh"); ("Unknown", I18n.t m "results.unknown");
     ("Invalid", I18n.t m "results.invalid"); ("Error", I18n.t m "results.error")].

Definition translate_entry (m : I18n.manager) (result : gmap string rval) : gmap string rval :=
  match result !! "risk_level" with
  | Some (RStr original_level) =>
      match translation_map m !! original_level with
      | Some translated => <["risk_level" := RStr translated]> result
      | None => result
      end
  | _ => result
  end.

Definition translate_risk_levels (m : I18n.manager)
  (results : gmap string (gmap string rval)) : gmap string (gmap string rval) :=
  translate_entry m <$> results.

Definition required_params : list string :=
  ["albumin"; "total_bilirubin"; "inr"; "ascites"; "encephalopathy"].

(** [param not in patient_data or patient_data[param] is None or patient_data[param] == ''] *)
Definition is_missing (patient_data : gmap string pyval) (param : string) : bool :=
  match patient_data !! param with
  | None => true
  | Some VNone => true
  | Some (VStr s) => String.eqb s ""
  | Some (VNum _) => false
  end.

Definition missing_params (patient_data : gmap string pyval) : list string :=
  List.filter (is_missing patient_data) required_params.

(** How the Child-Pugh [try] block of the view ends. *)
Inductive child_pugh_outcome :=
| ViewReturns
| Continues (traditional_scores : gmap string score) (child_pugh : ChildPugh.result).

(** The part of the [try] block after the missing-parameter test;
    [None] stands for the bare [return]. *)
Definition child_pugh_try (patient_data : gmap string pyval)
  : pyres (option ChildPugh.result) :=
  do albumin <- py_float (get patient_data "albumin");
  do bilirubin <- py_float (get patient_data "total_bilirubin");
  do inr <- py_float (get patient_data "inr");
  let ascites := ChildPugh.safe_int (get patient_data "ascites") in
  let encephalopathy := ChildPugh.safe_int (get patient_data "encephalopathy") in
  if (Qle_bool albumin 0 || Qle_bool bilirubin 0 || Qle_bool inr 0)%bool then ok None
  else ok (Some (ChildPugh.calculate_child_pugh albumin bilirubin inr ascites encephalopathy)).

Definition with_child_pugh (traditional_scores : gmap string score)
  (score_value class_value : score) : gmap string score :=
  <["Child-Pugh Class" := class_value]> (<["Child-Pugh Score" := score_value]> traditional_scores).

(** Lines 615-657. *)
Definition child_pugh_block (patient_data : gmap string pyval)
  (traditional_scores : gmap string score) : child_pugh_outcome :=
  match missing_params patient_data with
  | _ :: _ => ViewReturns
  | [] =>
      match child_pugh_try patient_data with
      | inr None => ViewReturns
      | inr (Some child_pugh) =>
          Continues
            (with_child_pugh traditional_scores
               (SNum (IZR (ChildPugh.cp_score child_pugh)))
               (SStr (ChildPugh.cp_class child_pugh)))
            child_pugh
      | inl _ =>
          Continues
            (with_child_pugh traditional_scores (SNum 0) (SStr "Unknown"))
            {| ChildPugh.cp_score := 0; ChildPugh.cp_class := "Unknown" |}
      end
  end.

(** The same block as written in the view's outer [except] handler
    (lines 746-793), which runs only when the main path raised. *)
Definition child_pugh_in_error_handler (patient_data : gmap string pyval)
  (traditional_scores : gmap string score) : gmap string score :=
  match missing_params patient_data with
  | _ :: _ => with_child_pugh traditional_scores (SStr "Missing Data") (SStr "Missing Data")
  | [] =>
      match child_pugh_try patient_data with
      | inr None => with_child_pugh traditional_scores (SStr "Invalid Data") (SStr "Invalid Data")
      | inr (Some child_pugh) =>
          with_child_pugh traditional_scores
            (SNum (IZR (ChildPugh.cp_score child_pugh)))
            (SStr (ChildPugh.cp_class child_pugh))
      | inl _ => with_child_pugh traditional_scores (SNum 0) (SStr "Unknown")
      end
  end.

(** What [render_template('results.html', ...)] receives. *)
Record assessment := {
  results : gmap string (gmap string rval);
  traditional_scores : gmap string score;
  score_interpretations : gmap string ScoreInterpreter.interp;
  has_afp : bool;
  child_pugh : ChildPugh.result
}.

Inductive response :=
| Rendered (a : assessment)
| ReturnedNone.

(** [for name, value in traditional_scores.items(): ...] *)
Definition interpret_all (m : I18n.manager) (traditional_scores : gmap string score)
  : gmap string ScoreInterpreter.interp :=
  map_imap (fun name value => Some (ScoreInterpreter.get_score_interpretation m name value))
    traditional_scores.

(** ['afp' in patient_data and patient_data['afp']] as a truth value. *)
Definition afp_given (patient_data : gmap string pyval) : bool :=
  match patient_data !! "afp" with
  | Some (VNum q) => negb (Qeq_bool q 0)
  | Some (VStr s) => negb (String.eqb s "")
  | Some VNone | None => false
  end.

Definition calculate_risks (env : environment) (patient_data : gmap string pyval)
  : response :=
  let results := disease_results env patient_data in
  let traditional_scores := TraditionalScores.calculate_traditional_scores patient_data in
  let results := translate_risk_levels (i18n env) results in
  match child_pugh_block patient_data traditional_scores with
  | ViewReturns => ReturnedNone
  | Continues traditional_scores child_pugh =>
      Rendered {|
        results := results;
        traditional_scores := traditional_scores;
        score_interpretations := interpret_all (i18n env) traditional_scores;
        has_afp := afp_given patient_data;
        child_pugh := child_pugh
      |}
  end.

End Composer.

(** * Vocabulary of the statements *)

(** The keys the shared calculator compares with zero. *)
Definition score_inputs : list string :=
  ["age"; "ast"; "alt"; "trombosit"; "total_bilirubin"; "inr"; "creatinine"; "bmi"].

Definition is_text (v : pyval) : bool :=
  match v with VStr _ => true | _ => false end.

(** None of the calculator's inputs is text: each is a number, [None]
    or absent. *)
Definition no_text (patient_data : gmap string pyval) : bool :=
  forallb (fun k => negb (is_text (get patient_data k))) score_inputs.

(** The value is [None] or a number that is not positive. *)
Definition none_or_nonpositive (v : pyval) : Prop :=
  match v with
  | VNone => True
  | VNum q => (q <= 0)%Q
  | VStr _ => False
  end.

(** Key [k] is absent, [None], or not positive. *)
Definition absent_or_nonpositive (patient_data : gmap string pyval) (k : string) : Prop :=
  none_or_nonpositive (get patient_data k).

(** The inputs each score of the shared calculator requires. *)
Definition required_inputs : list (string * list string) :=
  [("FIB-4", ["age"; "ast"; "alt"; "trombosit"]);
   ("APRI", ["ast"; "trombosit"]);
   ("MELD", ["total_bilirubin"; "inr"; "creatinine"]);
   ("BMI Category", ["bmi"])].

(** Sample records. *)
Definition patient_of (fields : list (string * Q)) : gmap string pyval :=
  list_to_map (List.map (fun kv => (fst kv, VNum (snd kv))) fields).

Definition sample_patient : gmap string pyval :=
  patient_of
    [("age", 50); ("gender", 1); ("ast", 80); ("alt", 100); ("trombosit", 150);
     ("albumin", 3.0); ("bmi", 25.0); ("inr", 1.5); ("total_bilirubin", 2.0);
     ("creatinine", 1.2); ("direct_bilirubin", 0.5); ("alp", 100);
     ("ascites", 1); ("encephalopathy", 0)]%Q.

(** The same record without the two Child-Pugh findings. *)
Definition sample_without_ascites : gmap string pyval :=
  delete "encephalopathy" (delete "ascites" sample_patient).

(** The same record with a body-mass index of zero. *)
Definition sample_bmi_zero : gmap string pyval :=
  <["bmi" := VNum 0]> sample_patient.

(** The same record with an albumin of zero. *)
Definition sample_albumin_zero : gmap string pyval :=
  <["albumin" := VNum 0]> sample_patient.

(** The same record with text in the age field, as the form handler
    keeps it when [float()] rejects what was typed. *)
Definition sample_text_age : gmap string pyval :=
  <["age" := VStr "abc"]> sample_patient.

(** A record with nothing in it. *)
Definition empty_patient : gmap string pyval := ∅.

(** A classifier that answers the same for every row. *)
Definition constant_classifier : classifier :=
  {| predict_proba := fun _ => (0.8, 0.2)%Q; predict := fun _ => 0%Z |}.

(** A transformer that changes nothing. *)
Definition identity_transformer : transformer := fun row => row.

(** No translation file was found: every key path translates to itself. *)
Definition no_translations : I18n.manager :=
  {| I18n.translations := <["tr" := ∅]> (<["en" := ∅]> ∅); I18n.language := "tr" |}.

(** Only the legacy cirrhosis artifacts are on disk. *)
Definition legacy_files : Cirrhosis.files :=
  {| Cirrhosis.model_xgb := Absent; Cirrhosis.scaler_xgb := Absent;
     Cirrhosis.imputer_xgb := Absent;
     Cirrhosis.model_pkl := Loaded constant_classifier;
     Cirrhosis.scaler_pkl := Loaded identity_transformer;
     Cirrhosis.imputer_pkl := Loaded identity_transformer |}.

(** The HCC artifacts are not on disk. *)
Definition hcc_files_absent : HCC.files :=
  {| HCC.svm_best_model := Absent; HCC.hcc_scaler := Absent |}.

(** Both HCC artifacts are on disk. *)
Definition hcc_files_loaded : HCC.files :=
  {| HCC.svm_best_model := Loaded constant_classifier;
     HCC.hcc_scaler := Loaded identity_transformer |}.

Definition sample_environment : Composer.environment :=
  {| Composer.i18n := no_translations;
     Composer.cirrhosis_files := legacy_files;
     Composer.hcc_files := hcc_files_absent;
     Composer.nafld_catboost := Loaded constant_classifier;
     Composer.set_order := fun fields => fields |}.

(** The same environment with the HCC artifacts present. *)
Definition full_environment : Composer.environment :=
  {| Composer.i18n := no_translations;
     Composer.cirrhosis_files := legacy_files;
     Composer.hcc_files := hcc_files_loaded;
     Composer.nafld_catboost := Loaded constant_classifier;
     Composer.set_order := fun fields => fields |}.

(** Entry [key] of the result stored for [disease]. *)
Definition entry (results : gmap string (gmap string rval)) (disease key : string)
  : option rval :=
  results !! disease ≫= fun result => result !! key.

(** The five Child-Pugh inputs are there and albumin, bilirubin and INR
    are positive numbers. *)
Definition child_pugh_inputs_valid (patient_data : gmap string pyval) : bool :=
  forallb (fun param => negb (Composer.is_missing patient_data param)) Composer.required_params
  && forallb (fun key => match patient_data !! key with
                         | Some (VNum q) => negb (Qle_bool q 0)
                         | _ => false
                         end) ["albumin"; "total_bilirubin"; "inr"].

(** The form fields each predictor cannot do without. *)
Definition cirrhosis_required : list string := Composer.cirrhosis_fields.

Definition hcc_required : list string :=
  ["age"; "gender"; "ast"; "alt"; "albumin"; "creatinine"; "inr"; "trombosit";
   "total_bilirubin"; "direct_bilirubin"; "alp"].

Definition nafld_required : list string := Composer.nafld_fields.

(** The number an optional HCC field contributes: its value, or the
    default 0 when the field is absent. *)
Definition optional_or_zero (patient_data : gmap string pyval) (k : string) : Q :=
  match patient_data !! k with
  | Some (VNum q) => q
  | _ => 0
  end.

(** The field is absent or holds a number. *)
Definition absent_or_number (patient_data : gmap string pyval) (k : string) : Prop :=
  patient_data !! k = None \/ exists q, patient_data !! k = Some (VNum q).

(** A scaler that halves every column. *)
Definition halving_transformer : transformer := List.map (fun x => x / 2)%Q.

(** The feature dictionary the HCC predictor builds from a complete
    record, in the order of its field loop. *)
Definition hcc_features
  (age gender ast alt albumin creatinine inr platelets total_bil dir_bil obesity alp afp : Q)
  : gmap string pyval :=
  <["AFP" := VNum afp]>
    (<["ALP" := VNum alp]>
     (<["Obesity" := VNum obesity]>
      (<["Dir_Bil" := VNum dir_bil]>
       (<["Total_Bil" := VNum total_bil]>
        (<["Trombosit" := VNum platelets]>
         (<["INR" := VNum inr]>
          (<["Creatinine" := VNum creatinine]>
           (<["Albumin" := VNum albumin]>
            (<["ALT" := VNum alt]>
             (<["AST" := VNum ast]>
              (<["Gender" := VNum gender]>
               (<["Age" := VNum age]> ∅)))))))))))).

(** The mapped data the cirrhosis predictor builds from a complete
    record under its legacy field mapping. *)
Definition legacy_mapped
  (age gender ast alt platelets albumin bmi inr total_bil creatinine dir_bil alp : Q)
  : gmap string pyval :=
  <["ALP" := VNum alp]>
    (<["Direct Bilirubin" := VNum dir_bil]>
     (<["Creatinine" := VNum creatinine]>
      (<["Total Bilirubin" := VNum total_bil]>
       (<["INR" := VNum inr]>
        (<["Body Mass Index" := VNum bmi]>
         (<["Albumin" := VNum albumin]>
          (<["Trombosit" := VNum platelets]>
           (<["ALT" := VNum alt]>
            (<["AST" := VNum ast]>
             (<["Gender (Female=1, Male=2)" := VNum gender]>
              (<["Age" := VNum age]> ∅))))))))))).

(** The same data once every value went through [float()]. *)
Definition legacy_numeric
  (age gender ast alt platelets albumin bmi inr total_bil creatinine dir_bil alp : Q)
  : gmap string Q :=
  list_to_map
    (zip Cirrhosis.legacy_feature_names
       [age; gender; ast; alt; platelets; albumin; bmi; inr; total_bil; creatinine;
        dir_bil; alp]).

(** The legacy cirrhosis predictor with the sample artifacts. *)
Definition sample_legacy : Cirrhosis.state :=
  Cirrhosis.Legacy constant_classifier identity_transformer identity_transformer.

(** [q ^ n] on rationals, used to bound logarithms by computation. *)
Fixpoint qpow (q : Q) (n : nat) : Q :=
  match n with
  | O => 1
  | S n' => q * qpow q n'
  end.

(** * Properties *)

(** ** Reading comparisons *)

Lemma ltb_true (a b : Q) : ltb a b = true <-> (a < b)%Q.
Proof.
  unfold ltb. rewrite negb_true_iff. split.
  - intros H. apply Qnot_le_lt. intros Hle. apply Qle_bool_iff in Hle. congruence.
  - intros H. destruct (Qle_bool b a) eqn:E; [|reflexivity].
    apply Qle_bool_iff in E. exfalso. apply (Qlt_not_le _ _ H E).
Qed.

Lemma ltb_false (a b : Q) : ltb a b = false <-> (b <= a)%Q.
Proof.
  unfold ltb. rewrite negb_false_iff. apply Qle_bool_iff.
Qed.

Lemma gtb_true (a b : Q) : gtb a b = true <-> (b < a)%Q.
Proof. apply ltb_true. Qed.

Lemma gtb_false (a b : Q) : gtb a b = false <-> (a <= b)%Q.
Proof. apply ltb_false. Qed.

Lemma leb_true (a b : Q) : leb a b = true <-> (a <= b)%Q.
Proof. apply Qle_bool_iff. Qed.

Lemma leb_false (a b : Q) : leb a b = false <-> (b < a)%Q.
Proof.
  unfold leb. split.
  - intros H. apply Qnot_le_lt. intros Hle. apply Qle_bool_iff in Hle. congruence.
  - intros H. destruct (Qle_bool a b) eqn:E; [|reflexivity].
    apply Qle_bool_iff in E. exfalso. apply (Qlt_not_le _ _ H E).
Qed.

Lemma Qle_bool_false (a b : Q) : Qle_bool a b = false <-> (b < a)%Q.
Proof. apply leb_false. Qed.

(** Turns every boolean comparison in the context into its order fact. *)
Ltac read_comparisons :=
  repeat match goal with
    | H : ltb _ _ = true |- _ => apply ltb_true in H
    | H : ltb _ _ = false |- _ => apply ltb_false in H
    | H : gtb _ _ = true |- _ => apply gtb_true in H
    | H : gtb _ _ = false |- _ => apply gtb_false in H
    | H : leb _ _ = true |- _ => apply leb_true in H
    | H : leb _ _ = false |- _ => apply leb_false in H
    | H : Qle_bool _ _ = true |- _ => apply Qle_bool_iff in H
    | H : Qle_bool _ _ = false |- _ => apply Qle_bool_false in H
    | H : (_ && _)%bool = true |- _ => apply andb_true_iff in H; destruct H
    | H : (_ && _)%bool = false |- _ => apply andb_false_iff in H
    | H : (_ || _)%bool = true |- _ => apply orb_true_iff in H
    | H : (_ || _)%bool = false |- _ => apply orb_false_iff in H; destruct H
    end.

(** ** The presence tests of the shared calculator *)

Lemma present_positive_numeric (v : pyval) :
  is_text v = false ->
  exists r, present_positive v = ok r /\
    (none_or_nonpositive v -> r = None) /\
    (forall q, v = VNum q -> (0 < q)%Q -> r = Some q).
Proof.
  destruct v as [|q|s]; simpl; intros Htext; try discriminate.
  - exists None. split; [reflexivity|]. split; [reflexivity|]. intros ? [=].
  - destruct (Qle_bool q 0) eqn:E; read_comparisons.
    + exists None. split; [reflexivity|]. split; [reflexivity|].
      intros q' [= <-] Hpos. exfalso. apply (Qlt_not_le _ _ Hpos E).
    + exists (Some q). split; [reflexivity|]. split.
      * intros Hle. exfalso. apply (Qlt_not_le _ _ E Hle).
      * intros q' [= <-] _. reflexivity.
Qed.

Lemma all_present_positive_numeric (vs : list pyval) :
  forallb (fun v => negb (is_text v)) vs = true ->
  exists r, all_present_positive vs = ok r /\
    (Exists none_or_nonpositive vs -> r = None) /\
    (forall qs, vs = List.map VNum qs -> Forall (fun q => (0 < q)%Q) qs -> r = Some qs).
Proof.
  induction vs as [|v vs IH]; simpl; intros Hall.
  - exists (Some []). split; [reflexivity|]. split.
    + intros H. inversion H.
    + intros [|q qs] Hqs _; [reflexivity | discriminate].
  - apply andb_true_iff in Hall. destruct Hall as [Hv Hvs].
    apply negb_true_iff in Hv.
    destruct (present_positive_numeric v Hv) as (r & Hr & Hbad & Hgood).
    destruct (IH Hvs) as (rs & Hrs & Hbads & Hgoods).
    rewrite Hr. unfold bind, ok. destruct r as [q|].
    + rewrite Hrs. eexists. split; [reflexivity|]. split.
      * intros Hex. inversion Hex as [? ? Hhead|? ? Htail]; subst.
        -- specialize (Hbad Hhead). discriminate.
        -- rewrite (Hbads Htail). reflexivity.
      * intros [|q' qs] Hqs Hpos; [discriminate|].
        simpl in Hqs. injection Hqs as Hq Hqs. inversion Hpos; subst.
        rewrite (Hgoods qs eq_refl) by assumption.
        assert (Some q = Some q') as [= ->] by (apply Hgood; [reflexivity | assumption]).
        reflexivity.
    + eexists. split; [reflexivity|]. split; [reflexivity|].
      intros [|q' qs] Hqs Hpos; [discriminate|].
      simpl in Hqs. injection Hqs as Hq Hqs. inversion Hpos; subst.
      assert (@None Q = Some q') by (apply Hgood; [reflexivity | assumption]).
      discriminate.
Qed.

Lemma no_text_get (patient_data : gmap string pyval) (k : string) :
  no_text patient_data = true -> In k score_inputs -> is_text (get patient_data k) = false.
Proof.
  unfold no_text. rewrite forallb_forall. intros H Hk.
  apply negb_true_iff. apply (H k Hk).
Qed.

Lemma no_text_list (patient_data : gmap string pyval) (ks : list string) :
  no_text patient_data = true -> incl ks score_inputs ->
  forallb (fun v => negb (is_text v)) (List.map (get patient_data) ks) = true.
Proof.
  intros H Hincl. apply forallb_forall. intros v Hv.
  apply in_map_iff in Hv. destruct Hv as (k & <- & Hk).
  apply negb_true_iff. apply no_text_get; auto.
Qed.

Ltac solve_incl :=
  let k := fresh in
  let H := fresh in
  intros k H; simpl in H; unfold score_inputs, In;
  repeat (destruct H as [<-|H]; [tauto|]); destruct H.

(** Without text among its inputs the [try] block completes, and the
    dictionary holds the four entries. *)
Lemma shared_calculator_completes (patient_data : gmap string pyval) :
  no_text patient_data = true ->
  exists v1 v2 v3 v4,
    TraditionalScores.fib4_entry patient_data = ok v1 /\
    TraditionalScores.apri_entry patient_data = ok v2 /\
    TraditionalScores.meld_entry patient_data = ok v3 /\
    TraditionalScores.bmi_entry patient_data = ok v4 /\
    TraditionalScores.calculate_traditional_scores patient_data =
      <["BMI Category" := v4]> (<["MELD" := v3]> (<["APRI" := v2]> (<["FIB-4" := v1]> ∅))).
Proof.
  intros Hnt.
  destruct (all_present_positive_numeric
              (List.map (get patient_data) ["age"; "ast"; "alt"; "trombosit"])
              (no_text_list patient_data ["age"; "ast"; "alt"; "trombosit"] Hnt ltac:(solve_incl))) as (r1 & H1 & _).
  destruct (all_present_positive_numeric
              (List.map (get patient_data) ["ast"; "trombosit"])
              (no_text_list patient_data ["ast"; "trombosit"] Hnt ltac:(solve_incl))) as (r2 & H2 & _).
  destruct (all_present_positive_numeric
              (List.map (get patient_data) ["total_bilirubin"; "inr"; "creatinine"])
              (no_text_list patient_data ["total_bilirubin"; "inr"; "creatinine"] Hnt ltac:(solve_incl))) as (r3 & H3 & _).
  destruct (present_positive_numeric (get patient_data "bmi")
              (no_text_get patient_data "bmi" Hnt ltac:(unfold score_inputs, In; tauto)))
    as (r4 & H4 & _).
  simpl List.map in H1, H2, H3.
  unfold TraditionalScores.calculate_traditional_scores, TraditionalScores.scores_body,
    TraditionalScores.fib4_entry, TraditionalScores.apri_entry,
    TraditionalScores.meld_entry, TraditionalScores.bmi_entry.
  rewrite H1, H2, H3, H4. unfold bind, ok.
  do 4 eexists. repeat (split; [reflexivity|]). reflexivity.
Qed.

Lemma exists_bad_input (patient_data : gmap string pyval) (k : string) (keys : list string) :
  In k keys -> absent_or_nonpositive patient_data k ->
  Exists none_or_nonpositive (List.map (get patient_data) keys).
Proof.
  intros Hk Hbad. apply List.Exists_exists. exists (get patient_data k). split.
  - apply in_map. exact Hk.
  - exact Hbad.
Qed.

(** ** C2: the sentinel of the shared calculator *)

(** C2 (as amended).  In the shared Traditional Score Calculator, for a
    record without text among the score inputs, each of FIB-4, APRI,
    MELD and BMI Category is the "Missing Data" sentinel as soon as one
    of the inputs it requires is absent, [None] or not positive.  The
    calculator returns a dictionary on every input. *)
Theorem shared_scores_missing_data
  (patient_data : gmap string pyval) (name k : string) (keys : list string) :
  no_text patient_data = true ->
  In (name, keys) required_inputs ->
  In k keys ->
  absent_or_nonpositive patient_data k ->
  TraditionalScores.calculate_traditional_scores patient_data !! name
  = Some (SStr "Missing Data").
Proof.
  intros Hnt Hname Hk Hbad.
  destruct (shared_calculator_completes patient_data Hnt)
    as (v1 & v2 & v3 & v4 & E1 & E2 & E3 & E4 & ->).
  pose proof (exists_bad_input patient_data k keys Hk Hbad) as Hex.
  unfold required_inputs in Hname. simpl in Hname.
  destruct Hname as [[= <- <-]|[[= <- <-]|[[= <- <-]|[[= <- <-]|[]]]]].
  - destruct (all_present_positive_numeric
                (List.map (get patient_data) ["age"; "ast"; "alt"; "trombosit"])
                (no_text_list patient_data ["age"; "ast"; "alt"; "trombosit"] Hnt ltac:(solve_incl))) as (r & Hr & Hnone & _).
    rewrite (Hnone Hex) in Hr. unfold TraditionalScores.fib4_entry in E1.
    simpl List.map in Hr. rewrite Hr in E1. injection E1 as <-.
    rewrite !lookup_insert_ne by discriminate. apply lookup_insert_eq.
  - destruct (all_present_positive_numeric
                (List.map (get patient_data) ["ast"; "trombosit"])
                (no_text_list patient_data ["ast"; "trombosit"] Hnt ltac:(solve_incl))) as (r & Hr & Hnone & _).
    rewrite (Hnone Hex) in Hr. unfold TraditionalScores.apri_entry in E2.
    simpl List.map in Hr. rewrite Hr in E2. injection E2 as <-.
    rewrite !lookup_insert_ne by discriminate. apply lookup_insert_eq.
  - destruct (all_present_positive_numeric
                (List.map (get patient_data) ["total_bilirubin"; "inr"; "creatinine"])
                (no_text_list patient_data ["total_bilirubin"; "inr"; "creatinine"] Hnt ltac:(solve_incl))) as (r & Hr & Hnone & _).
    rewrite (Hnone Hex) in Hr. unfold TraditionalScores.meld_entry in E3.
    simpl List.map in Hr. rewrite Hr in E3. injection E3 as <-.
    rewrite !lookup_insert_ne by discriminate. apply lookup_insert_eq.
  - destruct Hk as [<-|[]].
    destruct (present_positive_numeric (get patient_data "bmi")
                (no_text_get patient_data "bmi" Hnt ltac:(unfold score_inputs, In; tauto)))
      as (r & Hr & Hnone & _).
    rewrite (Hnone Hbad) in Hr. unfold TraditionalScores.bmi_entry in E4.
    rewrite Hr in E4. injection E4 as <-.
    apply lookup_insert_eq.
Qed.

(** A record with no platelet count: FIB-4 is the sentinel. *)
Lemma shared_scores_missing_data_witness :
  TraditionalScores.calculate_traditional_scores (delete "trombosit" sample_patient) !! "FIB-4"
  = Some (SStr "Missing Data").
Proof.
  apply (shared_scores_missing_data (delete "trombosit" sample_patient)
           "FIB-4" "trombosit" ["age"; "ast"; "alt"; "trombosit"]).
  - reflexivity.
  - simpl. auto.
  - simpl. auto.
  - exact I.
Defined.

(** C2, counterexample.  The NAFLD predictor's embedded calculator,
    given a body-mass index of zero, stores the category "Underweight"
    and a numeric NFS, not a sentinel. *)
Lemma embedded_scores_no_sentinel :
  NAFLD._calculate_traditional_scores sample_bmi_zero !! "BMI_Category"
  = Some (SStr "Underweight") /\
  SStr "Underweight" <> SStr "Missing Data" /\
  SStr "Underweight" <> SStr "Invalid Data" /\
  exists x, NAFLD._calculate_traditional_scores sample_bmi_zero !! "NFS" = Some (SNum x).
Proof.
  split; [reflexivity|]. split; [discriminate|]. split; [discriminate|].
  eexists. reflexivity.
Qed.

(** ** C9: BMI bands *)

(** The bands of the [if]/[elif] chain. *)
Lemma bmi_category_bands (bmi : Q) :
  ((bmi < 18.5)%Q -> TraditionalScores.bmi_category bmi = "Underweight") /\
  ((18.5 <= bmi)%Q -> (bmi < 25)%Q -> TraditionalScores.bmi_category bmi = "Normal") /\
  ((25 <= bmi)%Q -> (bmi < 30)%Q -> TraditionalScores.bmi_category bmi = "Overweight") /\
  ((30 <= bmi)%Q -> TraditionalScores.bmi_category bmi = "Obese").
Proof.
  unfold TraditionalScores.bmi_category.
  destruct (ltb bmi 18.5) eqn:E1; [|destruct (ltb bmi 25) eqn:E2; [|destruct (ltb bmi 30) eqn:E3]];
    read_comparisons; repeat split; intros; try reflexivity; exfalso; lra.
Qed.

(** The BMI step alone, for a positive index. *)
Lemma bmi_entry_positive (patient_data : gmap string pyval) (bmi : Q) :
  patient_data !! "bmi" = Some (VNum bmi) -> (0 < bmi)%Q ->
  TraditionalScores.bmi_entry patient_data
  = ok (SStr (TraditionalScores.bmi_category bmi)).
Proof.
  intros Hbmi Hpos.
  unfold TraditionalScores.bmi_entry, get. rewrite Hbmi. simpl.
  destruct (Qle_bool bmi 0) eqn:E0; read_comparisons; [lra|].
  reflexivity.
Qed.

(** The BMI step alone, for an absent, [None] or non-positive index. *)
Lemma bmi_entry_missing (patient_data : gmap string pyval) :
  absent_or_nonpositive patient_data "bmi" ->
  TraditionalScores.bmi_entry patient_data = ok (SStr "Missing Data").
Proof.
  unfold absent_or_nonpositive, TraditionalScores.bmi_entry.
  destruct (get patient_data "bmi") as [|q|s]; simpl; intros Hbad; try contradiction.
  - reflexivity.
  - apply Qle_bool_iff in Hbad. rewrite Hbad. reflexivity.
Qed.

(** Without text among the score inputs, the calculator stores the value
    of the BMI step. *)
Lemma shared_bmi_stored (patient_data : gmap string pyval) (v : score) :
  no_text patient_data = true ->
  TraditionalScores.bmi_entry patient_data = ok v ->
  TraditionalScores.calculate_traditional_scores patient_data !! "BMI Category" = Some v.
Proof.
  intros Hnt Hv.
  destruct (shared_calculator_completes patient_data Hnt)
    as (v1 & v2 & v3 & v4 & _ & _ & _ & E4 & ->).
  rewrite Hv in E4. injection E4 as <-. apply lookup_insert_eq.
Qed.

(** C9 (as amended).  For every record whose score inputs are numbers,
    [None] or absent (no text), the BMI Category that the shared
    Traditional Score Calculator stores uses half-open bands: for a
    positive body-mass index, below 18.5 is "Underweight", from 18.5 up
    to but excluding 25 is "Normal", from 25 up to but excluding 30 is
    "Overweight", and 30 or more is "Obese"; 25.0 is "Overweight" and
    18.5 is "Normal"; an absent, [None] or non-positive index gives
    "Missing Data". *)
Theorem bmi_category_half_open_bands (patient_data : gmap string pyval) :
  no_text patient_data = true ->
  (forall bmi, patient_data !! "bmi" = Some (VNum bmi) -> (0 < bmi)%Q ->
     exists label,
       TraditionalScores.calculate_traditional_scores patient_data !! "BMI Category"
       = Some (SStr label) /\
       ((bmi < 18.5)%Q -> label = "Underweight") /\
       ((18.5 <= bmi)%Q -> (bmi < 25)%Q -> label = "Normal") /\
       ((25 <= bmi)%Q -> (bmi < 30)%Q -> label = "Overweight") /\
       ((30 <= bmi)%Q -> label = "Obese") /\
       ((bmi == 25.0)%Q -> label = "Overweight") /\
       ((bmi == 18.5)%Q -> label = "Normal")) /\
  (absent_or_nonpositive patient_data "bmi" ->
     TraditionalScores.calculate_traditional_scores patient_data !! "BMI Category"
     = Some (SStr "Missing Data")).
Proof.
  intros Hnt. split.
  - intros bmi Hbmi Hpos.
    exists (TraditionalScores.bmi_category bmi). split.
    + apply shared_bmi_stored; [exact Hnt|].
      apply bmi_entry_positive; assumption.
    + destruct (bmi_category_bands bmi) as (Hunder & Hnormal & Hover & Hobese).
      repeat split; intros.
      * apply Hunder; assumption.
      * apply Hnormal; assumption.
      * apply Hover; assumption.
      * apply Hobese; assumption.
      * apply Hover; lra.
      * apply Hnormal; lra.
  - intros Hbad. apply shared_bmi_stored; [exact Hnt|].
    apply bmi_entry_missing. exact Hbad.
Qed.

(** A body-mass index of exactly 25 in a full record. *)
Lemma bmi_category_half_open_bands_witness :
  TraditionalScores.calculate_traditional_scores sample_patient !! "BMI Category"
  = Some (SStr "Overweight").
Proof.
  destruct (bmi_category_half_open_bands sample_patient eq_refl) as (Hbands & _).
  destruct (Hbands 25.0%Q eq_refl eq_refl) as (label & Hlookup & _ & _ & _ & _ & H25 & _).
  rewrite Hlookup. rewrite (H25 ltac:(reflexivity)). reflexivity.
Defined.

(** C9, counterexample.  With the text "abc" in the age field the FIB-4
    step raises, the [except] branch replaces the whole dictionary, and
    the category stored for a body-mass index of 25.0 is "Unknown", not
    "Overweight"; with the index absent from that record it is still
    "Unknown", not "Missing Data". *)
Lemma bmi_category_unknown_with_text_age :
  sample_text_age !! "bmi" = Some (VNum 25.0) /\
  TraditionalScores.calculate_traditional_scores sample_text_age !! "BMI Category"
  = Some (SStr "Unknown") /\
  SStr "Unknown" <> SStr "Overweight" /\
  delete "bmi" sample_text_age !! "bmi" = None /\
  TraditionalScores.calculate_traditional_scores (delete "bmi" sample_text_age) !! "BMI Category"
  = Some (SStr "Unknown") /\
  SStr "Unknown" <> SStr "Missing Data".
Proof.
  split; [reflexivity|]. split; [reflexivity|]. split; [discriminate|].
  split; [reflexivity|]. split; [reflexivity|]. discriminate.
Qed.

(** ** C6: Child-Pugh *)

Lemma class_of_bands (total : Z) :
  (ChildPugh.class_of total = "A" <-> (total <= 6)%Z) /\
  (ChildPugh.class_of total = "B" <-> (7 <= total <= 9)%Z) /\
  (ChildPugh.class_of total = "C" <-> (10 <= total)%Z).
Proof.
  unfold ChildPugh.class_of.
  destruct (Z.leb_spec total 6); [repeat split; (discriminate || lia || reflexivity)|].
  destruct (Z.leb_spec 7 total), (Z.leb_spec total 9); simpl;
    repeat split; (discriminate || lia || reflexivity).
Qed.

(** C6.  For positive albumin, bilirubin and INR and ordinal ascites and
    encephalopathy in {0,1,2}, the Child-Pugh score is the sum of five
    components (albumin: above 3.5 gives 1, from 2.8 to 3.5 gives 2, below
    2.8 gives 3; bilirubin: below 2 gives 1, from 2 to 3 gives 2, above 3
    gives 3; INR: below 1.7 gives 1, from 1.7 to 2.3 gives 2, above 2.3
    gives 3; ascites and encephalopathy: the ordinal plus one); the total
    lies between 5 and 15; the class is A exactly when the total is at
    most 6, B exactly from 7 to 9, C exactly from 10 on.  Albumin 3.0,
    bilirubin 2.5, INR 1.8, ascites 1, encephalopathy 0 give the
    components 2, 2, 2, 2, 1, the total 9 and class B. *)
Theorem child_pugh_score_and_class
  (albumin bilirubin inr : Q) (ascites encephalopathy : Z) :
  (0 < albumin)%Q -> (0 < bilirubin)%Q -> (0 < inr)%Q ->
  (0 <= ascites <= 2)%Z -> (0 <= encephalopathy <= 2)%Z ->
  let r := ChildPugh.calculate_child_pugh albumin bilirubin inr ascites encephalopathy in
  (exists a b i : Z,
     ChildPugh.cp_score r = (a + b + i + (ascites + 1) + (encephalopathy + 1))%Z /\
     ((3.5 < albumin)%Q -> a = 1%Z) /\
     ((2.8 <= albumin <= 3.5)%Q -> a = 2%Z) /\
     ((albumin < 2.8)%Q -> a = 3%Z) /\
     ((bilirubin < 2)%Q -> b = 1%Z) /\
     ((2 <= bilirubin <= 3)%Q -> b = 2%Z) /\
     ((3 < bilirubin)%Q -> b = 3%Z) /\
     ((inr < 1.7)%Q -> i = 1%Z) /\
     ((1.7 <= inr <= 2.3)%Q -> i = 2%Z) /\
     ((2.3 < inr)%Q -> i = 3%Z)) /\
  (5 <= ChildPugh.cp_score r <= 15)%Z /\
  (ChildPugh.cp_class r = "A" <-> (ChildPugh.cp_score r <= 6)%Z) /\
  (ChildPugh.cp_class r = "B" <-> (7 <= ChildPugh.cp_score r <= 9)%Z) /\
  (ChildPugh.cp_class r = "C" <-> (10 <= ChildPugh.cp_score r)%Z) /\
  (ChildPugh.albumin_score 3.0 = 2%Z /\ ChildPugh.bilirubin_score 2.5 = 2%Z /\
   ChildPugh.inr_score 1.8 = 2%Z /\
   ChildPugh.calculate_child_pugh 3.0 2.5 1.8 1 0
   = {| ChildPugh.cp_score := 9; ChildPugh.cp_class := "B" |}).
Proof.
  intros Halb Hbil Hinr Hasc Henc r.
  assert (Ha : (1 <= ChildPugh.albumin_score albumin <= 3)%Z).
  { unfold ChildPugh.albumin_score.
    destruct (gtb albumin 3.5); [lia|].
    destruct (leb 2.8 albumin && leb albumin 3.5)%bool; lia. }
  assert (Hb : (1 <= ChildPugh.bilirubin_score bilirubin <= 3)%Z).
  { unfold ChildPugh.bilirubin_score.
    destruct (ltb bilirubin 2); [lia|].
    destruct (leb 2 bilirubin && leb bilirubin 3)%bool; lia. }
  assert (Hi : (1 <= ChildPugh.inr_score inr <= 3)%Z).
  { unfold ChildPugh.inr_score.
    destruct (ltb inr 1.7); [lia|].
    destruct (leb 1.7 inr && leb inr 2.3)%bool; lia. }
  split; [|split; [|split; [|split; [|split]]]].
  - exists (ChildPugh.albumin_score albumin), (ChildPugh.bilirubin_score bilirubin),
      (ChildPugh.inr_score inr).
    split; [reflexivity|].
    unfold ChildPugh.albumin_score, ChildPugh.bilirubin_score, ChildPugh.inr_score.
    repeat split; intros H;
      repeat match goal with
        | |- context [if ?c then _ else _] => destruct c eqn:?
        end; read_comparisons; try reflexivity; exfalso;
      repeat match goal with
        | H : _ \/ _ |- _ => destruct H
        end; read_comparisons; lra.
  - subst r. simpl. lia.
  - apply class_of_bands.
  - apply class_of_bands.
  - apply class_of_bands.
  - repeat split.
Qed.

(** The example of the specification, read off the general statement. *)
Lemma child_pugh_score_and_class_witness :
  let r := ChildPugh.calculate_child_pugh 3.0 2.5 1.8 1 0 in
  ChildPugh.cp_score r = 9%Z /\ ChildPugh.cp_class r = "B".
Proof.
  destruct (child_pugh_score_and_class 3.0 2.5 1.8 1 0) as (Hsum & Hrange & _ & HB & _).
  - reflexivity.
  - reflexivity.
  - reflexivity.
  - lia.
  - lia.
  - destruct Hsum as (a & b & i & Hscore & _ & Ha & _ & _ & Hb & _ & _ & Hi & _).
    rewrite (Ha ltac:(split; discriminate)), (Hb ltac:(split; discriminate)),
      (Hi ltac:(split; discriminate)) in Hscore.
    split; [exact Hscore|]. apply HB. rewrite Hscore. lia.
Defined.

(** ** C10: the platelet rule of the NAFLD fallback *)

(** C10.  In [_mock_classification] the arm that adds 0.3 for platelets
    below 100 is never taken: a platelet count below 100 already passes
    the preceding test "below 150" and adds 0.2, so the weight 0.3
    enters no score, and two counts below 150 always give the same
    score. *)
Theorem platelet_below_100_arm_unreachable (platelets : Q) :
  NAFLD.platelet_branch_of platelets <> NAFLD.Below100 /\
  ((platelets < 100)%Q ->
     NAFLD.platelet_branch_of platelets = NAFLD.Below150 /\
     NAFLD.platelet_weight (NAFLD.platelet_branch_of platelets) = 0.2%Q) /\
  ~ (NAFLD.platelet_weight (NAFLD.platelet_branch_of platelets) == 0.3)%Q /\
  (forall age bmi ast alt albumin inr other : Q,
     (platelets < 100)%Q -> (other < 150)%Q ->
     NAFLD.mock_score age bmi ast alt platelets albumin inr
     = NAFLD.mock_score age bmi ast alt other albumin inr).
Proof.
  assert (Hbranch : forall p : Q, (p < 150)%Q -> NAFLD.platelet_branch_of p = NAFLD.Below150).
  { intros p Hp. unfold NAFLD.platelet_branch_of.
    destruct (ltb p 150) eqn:E; [reflexivity|]. read_comparisons. lra. }
  split; [|split; [|split]].
  - unfold NAFLD.platelet_branch_of.
    destruct (ltb platelets 150) eqn:E150; [discriminate|].
    destruct (ltb platelets 100) eqn:E100; [|discriminate].
    read_comparisons. lra.
  - intros Hlt. rewrite Hbranch by lra. split; reflexivity.
  - unfold NAFLD.platelet_branch_of.
    destruct (ltb platelets 150) eqn:E150; [simpl; intros H; discriminate H|].
    destruct (ltb platelets 100) eqn:E100; [read_comparisons; lra|].
    simpl. intros H. discriminate H.
  - intros age bmi ast alt albumin inr other Hlt Hother.
    unfold NAFLD.mock_score. rewrite (Hbranch platelets) by lra.
    rewrite (Hbranch other) by lra. reflexivity.
Qed.

(** Platelets of 72 (the "high risk" sample of the application) and of
    140 score the same. *)
Lemma platelet_below_100_arm_unreachable_witness :
  NAFLD.platelet_weight (NAFLD.platelet_branch_of 72) = 0.2%Q /\
  NAFLD.mock_score 58 33.8 210 185 72 2.4 2.8 = NAFLD.mock_score 58 33.8 210 185 140 2.4 2.8.
Proof.
  destruct (platelet_below_100_arm_unreachable 72) as (_ & Hweight & _ & Hsame).
  split.
  - apply Hweight. reflexivity.
  - apply Hsame; reflexivity.
Defined.

(** ** Bounds on the natural logarithm *)

Lemma Q2R_qpow (q : Q) (n : nat) : Q2R (qpow q n) = (Q2R q ^ n)%R.
Proof.
  induction n as [|n IH]; simpl.
  - unfold Q2R. simpl. lra.
  - rewrite Q2R_mult, IH. reflexivity.
Qed.

Lemma ln_le_minus_one (z : R) : (0 < z)%R -> (ln z <= z - 1)%R.
Proof.
  intros Hz. destruct (Rle_or_lt (ln z) (z - 1)) as [H|H]; [exact H|].
  exfalso. apply exp_increasing in H. rewrite (exp_ln z Hz) in H.
  pose proof (exp_ineq1_le (z - 1)). lra.
Qed.

Lemma ln_monotone (x y : R) : (0 < x)%R -> (x <= y)%R -> (ln x <= ln y)%R.
Proof.
  intros Hx [Hlt| ->]; [|lra].
  left. apply ln_increasing; assumption.
Qed.

Lemma Q2R_pos (q : Q) : (0 < q)%Q -> (0 < Q2R q)%R.
Proof.
  intros H. replace 0%R with (Q2R 0) by (unfold Q2R; simpl; lra).
  apply Qlt_Rlt. exact H.
Qed.

Lemma Q2R_of_nat (n : nat) : Q2R (inject_Z (Z.of_nat n)) = INR n.
Proof. rewrite INR_IZR_INZ. unfold Q2R. simpl. lra. Qed.

Lemma ln_lower_bound (y r : Q) (n : nat) :
  (0 < r)%Q -> (qpow r n <= y)%Q ->
  (Q2R (inject_Z (Z.of_nat n) * (1 - / r)) <= ln (Q2R y))%R.
Proof.
  intros Hr Hpow.
  pose proof (Q2R_pos r Hr) as Hr'.
  assert (Hnz : ~ (r == 0)%Q) by (intros E; rewrite E in Hr; discriminate Hr).
  rewrite Q2R_mult, Q2R_of_nat, Q2R_minus, Q2R_inv by exact Hnz.
  replace (Q2R 1) with 1%R by (unfold Q2R; simpl; lra).
  apply Qle_Rle in Hpow. rewrite Q2R_qpow in Hpow.
  assert (Hpos : (0 < Q2R r ^ n)%R) by (apply pow_lt; exact Hr').
  apply Rle_trans with (ln (Q2R r ^ n)); [|apply ln_monotone; assumption].
  rewrite ln_pow by exact Hr'.
  apply Rmult_le_compat_l; [apply pos_INR|].
  assert (Hinv : (0 < / Q2R r)%R) by (apply Rinv_0_lt_compat; exact Hr').
  pose proof (ln_le_minus_one (/ Q2R r) Hinv) as H.
  rewrite ln_Rinv in H by exact Hr'. lra.
Qed.

Lemma ln_upper_bound (y r : Q) (n : nat) :
  (0 < y)%Q -> (0 < r)%Q -> (y <= qpow r n)%Q ->
  (ln (Q2R y) <= Q2R (inject_Z (Z.of_nat n) * (r - 1)))%R.
Proof.
  intros Hy Hr Hpow.
  pose proof (Q2R_pos r Hr) as Hr'. pose proof (Q2R_pos y Hy) as Hy'.
  rewrite Q2R_mult, Q2R_of_nat, Q2R_minus.
  replace (Q2R 1) with 1%R by (unfold Q2R; simpl; lra).
  apply Qle_Rle in Hpow. rewrite Q2R_qpow in Hpow.
  apply Rle_trans with (ln (Q2R r ^ n)); [apply ln_monotone; assumption|].
  rewrite ln_pow by exact Hr'.
  apply Rmult_le_compat_l; [apply pos_INR|].
  apply ln_le_minus_one. exact Hr'.
Qed.

(** Bounds [lo <= ln y <= hi] from a lower and an upper approximation of
    the 256th root of [y]. *)
Lemma ln_between (y r_lo r_hi lo hi : Q) :
  (0 < y)%Q -> (0 < r_lo)%Q -> (0 < r_hi)%Q ->
  Qle_bool (qpow r_lo 256) y = true ->
  Qle_bool y (qpow r_hi 256) = true ->
  Qle_bool lo (inject_Z (Z.of_nat 256) * (1 - / r_lo)) = true ->
  Qle_bool (inject_Z (Z.of_nat 256) * (r_hi - 1)) hi = true ->
  (Q2R lo <= ln (Q2R y) <= Q2R hi)%R.
Proof.
  intros Hy Hlo Hhi H1 H2 H3 H4.
  apply Qle_bool_iff in H1, H2, H3, H4.
  apply Qle_Rle in H3, H4.
  pose proof (ln_lower_bound y r_lo 256 Hlo H1).
  pose proof (ln_upper_bound y r_hi 256 Hy Hhi H2).
  lra.
Qed.

Lemma Q2R_Qmax_one (q : Q) : Q2R (Qmax q 1) = Rmax (Q2R q) 1.
Proof.
  replace 1%R with (Q2R 1) by (unfold Q2R; simpl; lra).
  destruct (Q.max_spec_le q 1) as [[Hle Heq]|[Hle Heq]];
    rewrite (Qeq_eqR _ _ Heq); apply Qle_Rle in Hle.
  - rewrite Rmax_right; [reflexivity | exact Hle].
  - rewrite Rmax_left; [reflexivity | exact Hle].
Qed.

(** Reads [ln_between] at decimal constants. *)
Ltac ln_bounds y r_lo r_hi lo hi :=
  destruct (ln_between y r_lo r_hi lo hi) as [Hl Hu];
  try (vm_compute; reflexivity);
  set (L := ln (Q2R y)) in *; unfold Q2R in Hl, Hu; simpl in Hl, Hu; lra.

(** The three logarithms of the worked example, each within 0.002. *)
Lemma ln_2_bounds : (0.6922 <= ln (Q2R 2.0) <= 0.6941)%R.
Proof. ln_bounds 2.0%Q 1.002711275%Q 1.0027112751%Q 0.6922%Q 0.6941%Q. Qed.

Lemma ln_1_5_bounds : (0.4051 <= ln (Q2R 1.5) <= 0.4058)%R.
Proof. ln_bounds 1.5%Q 1.001585103%Q 1.0015851031%Q 0.4051%Q 0.4058%Q. Qed.

Lemma ln_1_2_bounds : (0.1822 <= ln (Q2R 1.2) <= 0.1824)%R.
Proof. ln_bounds 1.2%Q 1.0007124472%Q 1.0007124473%Q 0.1822%Q 0.1824%Q. Qed.

Lemma meld_example_bounds : (15.32 < TraditionalScores.meld 2.0 1.5 1.2 < 15.35)%R.
Proof.
  unfold TraditionalScores.meld.
  change (Qmax 2.0 1) with 2.0%Q. change (Qmax 1.5 1) with 1.5%Q.
  change (Qmax 1.2 1) with 1.2%Q.
  pose proof ln_2_bounds. pose proof ln_1_5_bounds. pose proof ln_1_2_bounds.
  lra.
Qed.

(** ** C5: MELD *)

Lemma present_positive_number (q : Q) :
  (0 < q)%Q -> present_positive (VNum q) = ok (Some q).
Proof.
  intros H. simpl. destruct (Qle_bool q 0) eqn:E; [|reflexivity].
  read_comparisons. lra.
Qed.

Lemma interpret_meld_high (m : I18n.manager) (x : R) :
  (15 < x <= 20)%R ->
  ScoreInterpreter.get_score_interpretation m "MELD" (SNum x)
  = ScoreInterpreter.mk "warning" (I18n.t m "results.high")
      (I18n.t m "results.highMortalityRisk").
Proof.
  intros [Hlo Hhi].
  unfold ScoreInterpreter.get_score_interpretation. simpl.
  unfold ScoreInterpreter.interpret_meld, ScoreInterpreter.rlt, ScoreInterpreter.rle.
  destruct (Rlt_dec x 10); [lra|].
  destruct (Rle_dec x 15); [lra|].
  destruct (Rle_dec x 20); [reflexivity|lra].
Qed.

(** The MELD step alone, for three positive inputs. *)
Lemma meld_entry_positive
  (patient_data : gmap string pyval) (bilirubin inr creatinine : Q) :
  patient_data !! "total_bilirubin" = Some (VNum bilirubin) ->
  patient_data !! "inr" = Some (VNum inr) ->
  patient_data !! "creatinine" = Some (VNum creatinine) ->
  (0 < bilirubin)%Q -> (0 < inr)%Q -> (0 < creatinine)%Q ->
  TraditionalScores.meld_entry patient_data
  = ok (SNum (3.78 * ln (Rmax (Q2R bilirubin) 1) + 11.2 * ln (Rmax (Q2R inr) 1)
              + 9.57 * ln (Rmax (Q2R creatinine) 1) + 6.43)%R).
Proof.
  intros Hb Hi Hc Hbpos Hipos Hcpos.
  unfold TraditionalScores.meld_entry, get. rewrite Hb, Hi, Hc.
  cbn [default from_option Datatypes.id all_present_positive].
  rewrite !present_positive_number by assumption.
  unfold bind, ok. unfold TraditionalScores.meld.
  rewrite !Q2R_Qmax_one. reflexivity.
Qed.

(** C5 (as amended).  For every record whose score inputs are numbers,
    [None] or absent (no text) and whose bilirubin, INR and creatinine
    are present and positive, the shared calculator computes and stores
    MELD = 3.78 ln(max(bilirubin,1)) + 11.2 ln(max(INR,1))
           + 9.57 ln(max(creatinine,1)) + 6.43, without clamping.
    MELD(2.0, 1.5, 1.2) lies between 15.32 and 15.35 (about 15.3, not
    17.4), and the Score Interpreter gives it the level "high" of the
    band (15,20], with the colour "warning". *)
Theorem meld_formula_and_example
  (m : I18n.manager) (patient_data : gmap string pyval) (bilirubin inr creatinine : Q) :
  no_text patient_data = true ->
  patient_data !! "total_bilirubin" = Some (VNum bilirubin) ->
  patient_data !! "inr" = Some (VNum inr) ->
  patient_data !! "creatinine" = Some (VNum creatinine) ->
  (0 < bilirubin)%Q -> (0 < inr)%Q -> (0 < creatinine)%Q ->
  let value :=
    (3.78 * ln (Rmax (Q2R bilirubin) 1) + 11.2 * ln (Rmax (Q2R inr) 1)
     + 9.57 * ln (Rmax (Q2R creatinine) 1) + 6.43)%R in
  TraditionalScores.meld_entry patient_data = ok (SNum value) /\
  TraditionalScores.calculate_traditional_scores patient_data !! "MELD"
  = Some (SNum value) /\
  (15.32 < TraditionalScores.meld 2.0 1.5 1.2 < 15.35)%R /\
  let shown :=
    ScoreInterpreter.get_score_interpretation m "MELD"
      (SNum (TraditionalScores.meld 2.0 1.5 1.2)) in
  ScoreInterpreter.level shown = I18n.t m "results.high" /\
  ScoreInterpreter.color shown = "warning".
Proof.
  intros Hnt Hb Hi Hc Hbpos Hipos Hcpos value.
  pose proof (meld_entry_positive patient_data bilirubin inr creatinine
                Hb Hi Hc Hbpos Hipos Hcpos) as Hentry.
  fold value in Hentry.
  split; [exact Hentry|]. split; [|split].
  - destruct (shared_calculator_completes patient_data Hnt)
      as (v1 & v2 & v3 & v4 & _ & _ & E3 & _ & ->).
    rewrite Hentry in E3. injection E3 as <-.
    rewrite lookup_insert_ne by discriminate. apply lookup_insert_eq.
  - exact meld_example_bounds.
  - pose proof meld_example_bounds as [Hlo Hhi].
    rewrite interpret_meld_high by lra. split; reflexivity.
Qed.

(** The worked example as a record. *)
Lemma meld_formula_and_example_witness :
  TraditionalScores.calculate_traditional_scores sample_patient !! "MELD"
  = Some (SNum (3.78 * ln (Rmax (Q2R 2.0) 1) + 11.2 * ln (Rmax (Q2R 1.5) 1)
                + 9.57 * ln (Rmax (Q2R 1.2) 1) + 6.43)%R).
Proof.
  destruct (meld_formula_and_example
              {| I18n.translations := ∅; I18n.language := "en" |}
              sample_patient 2.0 1.5 1.2) as (_ & Hstored & _);
    try reflexivity.
  exact Hstored.
Defined.

(** C5, counterexample.  MELD(2.0, 1.5, 1.2) is not approximately 17.4:
    it is more than 2 below it. *)
Lemma meld_example_is_not_17_4 :
  ~ (Rabs (TraditionalScores.meld 2.0 1.5 1.2 - 17.4) <= 2)%R.
Proof.
  pose proof meld_example_bounds as [Hlo Hhi]. intros H.
  unfold Rabs in H. destruct (Rcase_abs _) in H; lra.
Qed.

(** ** C1: the Child-Pugh block of the view *)

Lemma missing_params_nonempty (patient_data : gmap string pyval) (param : string) :
  In param Composer.required_params ->
  Composer.is_missing patient_data param = true ->
  Composer.missing_params patient_data <> [].
Proof.
  intros Hin Hmiss Hnil.
  assert (H : In param (Composer.missing_params patient_data)).
  { unfold Composer.missing_params. apply filter_In. split; assumption. }
  rewrite Hnil in H. destruct H.
Qed.

Lemma child_pugh_try_invalid (patient_data : gmap string pyval) (albumin bilirubin inr : Q) :
  patient_data !! "albumin" = Some (VNum albumin) ->
  patient_data !! "total_bilirubin" = Some (VNum bilirubin) ->
  patient_data !! "inr" = Some (VNum inr) ->
  (albumin <= 0 \/ bilirubin <= 0 \/ inr <= 0)%Q ->
  Composer.child_pugh_try patient_data = ok None.
Proof.
  intros Ha Hb Hi Hbad.
  unfold Composer.child_pugh_try, get. rewrite Ha, Hb, Hi.
  cbn [default from_option Datatypes.id py_float bind ok].
  assert (E : (Qle_bool albumin 0 || Qle_bool bilirubin 0 || Qle_bool inr 0)%bool = true).
  { destruct Hbad as [H|[H|H]]; apply Qle_bool_iff in H; rewrite H;
      rewrite ?orb_true_r; reflexivity. }
  rewrite E. reflexivity.
Qed.

Lemma with_child_pugh_score (scores : gmap string score) (s c : score) :
  Composer.with_child_pugh scores s c !! "Child-Pugh Score" = Some s.
Proof.
  unfold Composer.with_child_pugh.
  rewrite lookup_insert_ne by discriminate. apply lookup_insert_eq.
Qed.

Lemma with_child_pugh_class (scores : gmap string score) (s c : score) :
  Composer.with_child_pugh scores s c !! "Child-Pugh Class" = Some c.
Proof. unfold Composer.with_child_pugh. apply lookup_insert_eq. Qed.

Lemma with_child_pugh_other (scores : gmap string score) (s c : score) (k : string) :
  k <> "Child-Pugh Score" -> k <> "Child-Pugh Class" ->
  Composer.with_child_pugh scores s c !! k = scores !! k.
Proof.
  intros H1 H2. unfold Composer.with_child_pugh.
  rewrite !lookup_insert_ne by congruence. reflexivity.
Qed.

(** C1 (the code departs from it).  When one of the five Child-Pugh
    inputs is absent, or albumin, bilirubin or INR is a number that is
    not positive, the view ends with a bare [return]: nothing is
    rendered, no disease entry, score or interpretation reaches the
    caller.  The same block in the view's error handler records the
    sentinel instead, as the claim describes. *)
Theorem child_pugh_gap_ends_the_view
  (env : Composer.environment) (patient_data : gmap string pyval) :
  (exists param, In param Composer.required_params /\ patient_data !! param = None) \/
  (exists albumin bilirubin inr : Q,
     patient_data !! "albumin" = Some (VNum albumin) /\
     patient_data !! "total_bilirubin" = Some (VNum bilirubin) /\
     patient_data !! "inr" = Some (VNum inr) /\
     (albumin <= 0 \/ bilirubin <= 0 \/ inr <= 0)%Q) ->
  Composer.calculate_risks env patient_data = Composer.ReturnedNone /\
  forall scores : gmap string score,
    exists sentinel,
      (sentinel = "Missing Data" \/ sentinel = "Invalid Data") /\
      Composer.child_pugh_in_error_handler patient_data scores !! "Child-Pugh Score"
      = Some (SStr sentinel) /\
      Composer.child_pugh_in_error_handler patient_data scores !! "Child-Pugh Class"
      = Some (SStr sentinel).
Proof.
  intros Hgap.
  assert (Hcases : Composer.missing_params patient_data <> [] \/
                   (Composer.missing_params patient_data = [] /\
                    Composer.child_pugh_try patient_data = ok None)).
  { destruct Hgap as [(param & Hin & Habsent)|(a & b & i & Ha & Hb & Hi & Hbad)].
    - left. apply (missing_params_nonempty patient_data param Hin).
      unfold Composer.is_missing. rewrite Habsent. reflexivity.
    - destruct (Composer.missing_params patient_data) eqn:E; [right|left; discriminate].
      split; [reflexivity|]. eapply child_pugh_try_invalid; eassumption. }
  split.
  - unfold Composer.calculate_risks, Composer.child_pugh_block.
    destruct Hcases as [Hne|[-> ->]].
    + destruct (Composer.missing_params patient_data); [contradiction|reflexivity].
    + reflexivity.
  - intros scores. unfold Composer.child_pugh_in_error_handler.
    destruct Hcases as [Hne|[-> ->]].
    + destruct (Composer.missing_params patient_data); [contradiction|].
      exists "Missing Data". split; [left; reflexivity|]. split.
      * apply with_child_pugh_score.
      * apply with_child_pugh_class.
    + exists "Invalid Data". split; [right; reflexivity|]. split.
      * apply with_child_pugh_score.
      * apply with_child_pugh_class.
Qed.

(** A full record submitted without ascites and encephalopathy. *)
Lemma child_pugh_gap_ends_the_view_witness :
  Composer.calculate_risks full_environment sample_without_ascites = Composer.ReturnedNone.
Proof.
  apply (child_pugh_gap_ends_the_view full_environment sample_without_ascites).
  left. exists "ascites". split.
  - simpl. auto.
  - reflexivity.
Defined.

(** ** Field selection and field mapping *)

Lemma select_fields_acc (fields : list string) (patient_data acc : gmap string pyval)
  (k : string) :
  foldl (fun d field =>
           match patient_data !! field with
           | Some v => <[field := v]> d
           | None => d
           end) acc fields !! k
  = if bool_decide (k ∈ fields)
    then match patient_data !! k with Some v => Some v | None => acc !! k end
    else acc !! k.
Proof.
  revert acc. induction fields as [|f fields IH]; intros acc; cbn [foldl].
  - rewrite bool_decide_eq_false_2 by apply not_elem_of_nil. reflexivity.
  - rewrite IH. clear IH.
    destruct (decide (k ∈ fields)) as [Hin|Hnin].
    + rewrite !bool_decide_eq_true_2 by (try apply elem_of_cons; auto).
      destruct (patient_data !! k) as [v|] eqn:Ek; [reflexivity|].
      destruct (patient_data !! f) as [w|] eqn:Ef; [|reflexivity].
      rewrite lookup_insert_ne by congruence. reflexivity.
    + rewrite (bool_decide_eq_false_2 (k ∈ fields)) by assumption.
      destruct (decide (f = k)) as [->|Hne].
      * rewrite bool_decide_eq_true_2 by (apply elem_of_cons; auto).
        destruct (patient_data !! k) as [v|]; [apply lookup_insert_eq|reflexivity].
      * rewrite bool_decide_eq_false_2
          by (intros H; apply elem_of_cons in H; destruct H; congruence).
        destruct (patient_data !! f) as [w|]; [|reflexivity].
        rewrite lookup_insert_ne by assumption. reflexivity.
Qed.

(** The selected dictionary agrees with the record on the listed
    fields and holds nothing else. *)
Lemma select_fields_lookup (fields : list string) (patient_data : gmap string pyval)
  (k : string) :
  Composer.select_fields fields patient_data !! k
  = if bool_decide (k ∈ fields) then patient_data !! k else None.
Proof.
  unfold Composer.select_fields. rewrite select_fields_acc.
  destruct (bool_decide (k ∈ fields)); [|apply lookup_empty].
  destruct (patient_data !! k); [reflexivity|apply lookup_empty].
Qed.

(** [map_fields] reports exactly the absent form fields, in order. *)
Lemma map_fields_missing (mapping : list (string * string))
  (patient_data mapped : gmap string pyval) (missing_fields : list string) :
  snd (map_fields mapping patient_data mapped missing_fields)
  = (missing_fields ++
     List.filter (fun f => bool_decide (patient_data !! f = None)) (List.map fst mapping))%list.
Proof.
  revert mapped missing_fields.
  induction mapping as [|[form_field model_field] rest IH]; intros mapped missing_fields; simpl.
  - symmetry. apply app_nil_r.
  - destruct (patient_data !! form_field) as [v|] eqn:E.
    + rewrite IH. rewrite bool_decide_eq_false_2 by congruence. reflexivity.
    + rewrite IH. rewrite bool_decide_eq_true_2 by reflexivity.
      rewrite <- app_assoc. reflexivity.
Qed.

Lemma map_fields_reports_absent (mapping : list (string * string))
  (patient_data : gmap string pyval) (field : string) :
  In field (List.map fst mapping) -> patient_data !! field = None ->
  snd (map_fields mapping patient_data ∅ []) <> [].
Proof.
  intros Hin Habsent Hnil. rewrite map_fields_missing in Hnil. simpl in Hnil.
  assert (H : In field (List.filter (fun f => bool_decide (patient_data !! f = None))
                          (List.map fst mapping))).
  { apply filter_In. split; [exact Hin|]. apply bool_decide_eq_true_2. exact Habsent. }
  rewrite Hnil in H. destruct H.
Qed.

(** A field absent from the record is absent from the mapped data when
    no other form field is mapped to the same name. *)
Lemma map_fields_lookup_none (mapping : list (string * string))
  (patient_data mapped : gmap string pyval) (missing_fields : list string) (col : string) :
  mapped !! col = None ->
  (forall f c, In (f, c) mapping -> c = col -> patient_data !! f = None) ->
  fst (map_fields mapping patient_data mapped missing_fields) !! col = None.
Proof.
  revert mapped missing_fields.
  induction mapping as [|[form_field model_field] rest IH];
    intros mapped missing_fields Hnone Hall; simpl.
  - exact Hnone.
  - destruct (patient_data !! form_field) as [v|] eqn:E.
    + apply IH.
      * destruct (decide (model_field = col)) as [->|Hne].
        -- rewrite (Hall form_field col) in E; [discriminate|left; reflexivity|reflexivity].
        -- rewrite lookup_insert_ne by assumption. exact Hnone.
      * intros f c Hin. apply Hall. right. exact Hin.
    + apply IH; [exact Hnone|]. intros f c Hin. apply Hall. right. exact Hin.
Qed.

(** ** The predictors on a record that lacks a required field *)

Lemma cirrhosis_missing_field (order : list string -> list string)
  (st : Cirrhosis.state) (data : gmap string pyval) (field : string) :
  In field cirrhosis_required -> data !! field = None ->
  exists e, Cirrhosis.predict_risk order st data = Cirrhosis.error_result e.
Proof.
  intros Hin Habsent.
  unfold Cirrhosis.predict_risk, Cirrhosis.predict_risk_body.
  destruct st as [model|model scaler imputer|].
  - pose proof (map_fields_reports_absent Cirrhosis.field_mapping data field Hin Habsent) as Hne.
    destruct (map_fields Cirrhosis.field_mapping data ∅ []) as [mapped missing_fields].
    simpl in Hne. destruct missing_fields as [|f fs]; [contradiction|].
    eexists. reflexivity.
  - pose proof (map_fields_reports_absent Cirrhosis.legacy_field_mapping data field Hin Habsent)
      as Hne.
    destruct (map_fields Cirrhosis.legacy_field_mapping data ∅ []) as [mapped missing_fields].
    simpl in Hne. destruct missing_fields as [|f fs]; [contradiction|].
    eexists. reflexivity.
  - eexists. reflexivity.
Qed.

(** What [collect_features] reports when it does not raise. *)
Lemma collect_features_missing (mapping : list (string * string))
  (patient_data features : gmap string pyval) (missing_fields : list string)
  (result : gmap string pyval * list string) :
  HCC.collect_features mapping patient_data features missing_fields = inr result ->
  (forall f, In f missing_fields -> In f (snd result)) /\
  (forall form col, In (form, col) mapping -> patient_data !! form = None ->
                    col <> "AFP" -> col <> "Obesity" -> In form (snd result)).
Proof.
  revert features missing_fields.
  induction mapping as [|[form_field dataset_col] rest IH];
    intros features missing_fields Hres; simpl in Hres.
  - injection Hres as <-. split; [auto|]. intros ? ? [].
  - destruct (patient_data !! form_field) as [value|] eqn:E.
    + destruct (if String.eqb dataset_col "Trombosit"
                then do q <- py_float value; ok (VNum (q * 1000))
                else ok value) as [e|value'] eqn:Ev; [discriminate Hres|].
      cbn [bind] in Hres. destruct (IH _ _ Hres) as [Hkeep Hnew].
      split; [exact Hkeep|].
      intros form col [[= <- <-]|Hin] Habsent Hafp Hob; [congruence|].
      eapply Hnew; eassumption.
    + destruct (String.eqb dataset_col "AFP") eqn:Eafp.
      { destruct (IH _ _ Hres) as [Hkeep Hnew]. split; [exact Hkeep|].
        intros form col [[= <- <-]|Hin] Habsent Hafp Hob.
        - apply String.eqb_eq in Eafp. contradiction.
        - eapply Hnew; eassumption. }
      destruct (String.eqb dataset_col "Obesity") eqn:Eob.
      { destruct (IH _ _ Hres) as [Hkeep Hnew]. split; [exact Hkeep|].
        intros form col [[= <- <-]|Hin] Habsent Hafp Hob.
        - apply String.eqb_eq in Eob. contradiction.
        - eapply Hnew; eassumption. }
      destruct (IH _ _ Hres) as [Hkeep Hnew]. split.
      * intros f Hf. apply Hkeep. apply in_or_app. left. exact Hf.
      * intros form col [[= <- <-]|Hin] Habsent Hafp Hob.
        -- apply Hkeep. apply in_or_app. right. left. reflexivity.
        -- eapply Hnew; eassumption.
Qed.

Lemma hcc_required_mapped (field : string) :
  In field hcc_required ->
  exists col, In (field, col) HCC.field_mapping /\ col <> "AFP" /\ col <> "Obesity".
Proof.
  unfold hcc_required. simpl.
  intros H. repeat (destruct H as [<-|H];
    [eexists; split; [unfold HCC.field_mapping; simpl; tauto|split; discriminate]|]).
  destruct H.
Qed.

Lemma hcc_missing_field (st : HCC.state) (data : gmap string pyval) (field : string) :
  In field hcc_required -> data !! field = None ->
  exists e, HCC.predict_risk st data = HCC.error_result e.
Proof.
  intros Hin Habsent.
  unfold HCC.predict_risk, HCC.predict_risk_body.
  destruct (HCC.model st) as [clf|]; [|eexists; reflexivity].
  destruct (HCC.scaler st) as [sc|]; [|eexists; reflexivity].
  destruct (HCC.collect_features HCC.field_mapping data ∅ [])
    as [e|[features missing_fields]] eqn:Ecol; [eexists; reflexivity|].
  cbn [bind].
  destruct (hcc_required_mapped field Hin) as (col & Hmap & Hafp & Hob).
  destruct (collect_features_missing _ _ _ _ _ Ecol) as [_ Hnew].
  specialize (Hnew field col Hmap Habsent Hafp Hob). simpl in Hnew.
  destruct missing_fields as [|f fs]; [destruct Hnew|].
  eexists. reflexivity.
Qed.

Lemma nafld_missing_field (model : option classifier) (data : gmap string pyval)
  (field : string) :
  In field nafld_required -> data !! field = None ->
  exists e, NAFLD.predict_risk model data = NAFLD.error_result e.
Proof.
  intros Hin Habsent.
  unfold NAFLD.predict_risk, NAFLD.predict_risk_body.
  destruct (map_fields NAFLD.field_mapping data ∅ []) as [mapped_data ms] eqn:Emap.
  assert (Hcol : exists col, In col NAFLD.feature_names /\ mapped_data !! col = None).
  { replace mapped_data with (fst (map_fields NAFLD.field_mapping data ∅ []))
      by (rewrite Emap; reflexivity).
    assert (Hmapped : exists col, In (field, col) NAFLD.field_mapping).
    { unfold nafld_required, Composer.nafld_fields, Composer.cirrhosis_fields in Hin.
      simpl in Hin.
      repeat (destruct Hin as [<-|Hin];
        [eexists; unfold NAFLD.field_mapping; simpl; tauto|]).
      destruct Hin. }
    destruct Hmapped as (col & Hmap). clear Hin.
    exists col. unfold NAFLD.field_mapping in Hmap. simpl in Hmap. split.
    - repeat (destruct Hmap as [[= <- <-]|Hmap];
        [unfold NAFLD.feature_names; simpl; tauto|]).
      destruct Hmap.
    - apply map_fields_lookup_none; [apply lookup_empty|].
      intros f c Hfc Hc. unfold NAFLD.field_mapping in Hfc. simpl in Hfc.
      repeat (destruct Hmap as [[= <- <-]|Hmap];
        [repeat (destruct Hfc as [[= <- <-]|Hfc];
           [first [exact Habsent|discriminate Hc]|]);
         destruct Hfc|]).
      destruct Hmap. }
  destruct Hcol as (col & Hfeat & Hnone).
  assert (Hmiss : In col (List.filter (fun f => bool_decide (mapped_data !! f = None))
                            NAFLD.feature_names)).
  { apply filter_In. split; [exact Hfeat|]. apply bool_decide_eq_true_2. exact Hnone. }
  destruct (List.filter _ NAFLD.feature_names) as [|f fs]; [destruct Hmiss|].
  eexists. reflexivity.
Qed.

(** ** C4: a required field is missing *)

(** The three entries of [results] are what the three predictors
    return, each from its own artifacts and its own selection of fields. *)
Lemma disease_results_entries (env : Composer.environment) (patient_data : gmap string pyval) :
  let results := Composer.disease_results env patient_data in
  results !! "cirrhosis"
  = Some (Cirrhosis.predict_cirrhosis_risk (Composer.set_order env)
            (Composer.cirrhosis_files env)
            (Composer.select_fields Composer.cirrhosis_fields patient_data)) /\
  results !! "hcc"
  = Some (HCC.predict_hcc_risk (Composer.hcc_files env)
            (Composer.select_fields (Composer.hcc_fields ++ ["afp"]) patient_data)) /\
  results !! "nafld"
  = Some (NAFLD.predict_nafld_classification (Composer.nafld_catboost env)
            (Composer.select_fields Composer.nafld_fields patient_data)).
Proof.
  unfold Composer.disease_results, Composer.try_predict, ok.
  split; [|split].
  - rewrite !lookup_insert_ne by discriminate. apply lookup_insert_eq.
  - rewrite lookup_insert_ne by discriminate. apply lookup_insert_eq.
  - apply lookup_insert_eq.
Qed.

Lemma selected_absent (fields : list string) (patient_data : gmap string pyval) (k : string) :
  patient_data !! k = None -> Composer.select_fields fields patient_data !! k = None.
Proof.
  intros H. rewrite select_fields_lookup. rewrite H.
  destruct (bool_decide (k ∈ fields)); reflexivity.
Qed.

(** C4 (as amended).  For each of the three predictors, a record that
    lacks one of its required fields makes the predictor raise inside
    its own [try] block and return its own error dictionary: Cirrhosis
    gives risk_level "Unknown", risk_color "secondary" and the message
    inside "interpretation" (no "error" entry); HCC gives risk_level
    "Error", risk_color "secondary" and "error"; NAFLD gives
    classification "Error", risk_color "secondary" and "error" (no
    "risk_level" entry).  The Result Composer stores each dictionary as
    it is, its own handlers do not run, and every entry depends only on
    that predictor's artifacts and fields, so the other two predictors
    produce their own results. *)
Theorem missing_field_error_entries
  (env : Composer.environment) (patient_data : gmap string pyval) :
  let results := Composer.disease_results env patient_data in
  (results !! "cirrhosis"
   = Some (Cirrhosis.predict_cirrhosis_risk (Composer.set_order env)
             (Composer.cirrhosis_files env)
             (Composer.select_fields Composer.cirrhosis_fields patient_data)) /\
   results !! "hcc"
   = Some (HCC.predict_hcc_risk (Composer.hcc_files env)
             (Composer.select_fields (Composer.hcc_fields ++ ["afp"]) patient_data)) /\
   results !! "nafld"
   = Some (NAFLD.predict_nafld_classification (Composer.nafld_catboost env)
             (Composer.select_fields Composer.nafld_fields patient_data))) /\
  (forall field, In field cirrhosis_required -> patient_data !! field = None ->
     exists e,
       results !! "cirrhosis" = Some (Cirrhosis.error_result e) /\
       entry results "cirrhosis" "risk_level" = Some (RStr "Unknown") /\
       entry results "cirrhosis" "risk_color" = Some (RStr "secondary") /\
       entry results "cirrhosis" "error" = None /\
       entry results "cirrhosis" "interpretation"
       = Some (RStr ("Error in prediction: " ++ exc_msg e))) /\
  (forall field, In field hcc_required -> patient_data !! field = None ->
     exists e,
       results !! "hcc" = Some (HCC.error_result e) /\
       entry results "hcc" "risk_level" = Some (RStr "Error") /\
       entry results "hcc" "risk_color" = Some (RStr "secondary") /\
       entry results "hcc" "error" = Some (RStr (exc_msg e))) /\
  (forall field, In field nafld_required -> patient_data !! field = None ->
     exists e,
       results !! "nafld" = Some (NAFLD.error_result e) /\
       entry results "nafld" "classification" = Some (RStr "Error") /\
       entry results "nafld" "risk_level" = None /\
       entry results "nafld" "risk_color" = Some (RStr "secondary") /\
       entry results "nafld" "error" = Some (RStr (exc_msg e))).
Proof.
  intros results.
  destruct (disease_results_entries env patient_data) as (Hc & Hh & Hn).
  fold results in Hc, Hh, Hn.
  split; [auto|]. split; [|split].
  - intros field Hin Habsent.
    destruct (cirrhosis_missing_field (Composer.set_order env)
                (Cirrhosis.load_model (Composer.cirrhosis_files env))
                (Composer.select_fields Composer.cirrhosis_fields patient_data) field Hin
                (selected_absent _ _ _ Habsent)) as (e & He).
    exists e. unfold entry. rewrite Hc.
    unfold Cirrhosis.predict_cirrhosis_risk. rewrite He.
    repeat split; reflexivity.
  - intros field Hin Habsent.
    destruct (hcc_missing_field (HCC.load_model (Composer.hcc_files env))
                (Composer.select_fields (Composer.hcc_fields ++ ["afp"]) patient_data) field Hin
                (selected_absent _ _ _ Habsent)) as (e & He).
    exists e. unfold entry. rewrite Hh.
    unfold HCC.predict_hcc_risk. rewrite He.
    repeat split; reflexivity.
  - intros field Hin Habsent.
    destruct (nafld_missing_field (NAFLD.load_model (Composer.nafld_catboost env))
                (Composer.select_fields Composer.nafld_fields patient_data) field Hin
                (selected_absent _ _ _ Habsent)) as (e & He).
    exists e. unfold entry. rewrite Hn.
    unfold NAFLD.predict_nafld_classification. rewrite He.
    repeat split; reflexivity.
Qed.

(** A record without the patient's age, all artifacts on disk: the
    three error entries with their messages. *)
Lemma missing_field_error_entries_witness :
  let results := Composer.disease_results full_environment (delete "age" sample_patient) in
  entry results "cirrhosis" "risk_level" = Some (RStr "Unknown") /\
  entry results "hcc" "error"
  = Some (RStr "Missing required fields for HCC prediction: age") /\
  entry results "nafld" "classification" = Some (RStr "Error").
Proof.
  intros results.
  destruct (missing_field_error_entries full_environment (delete "age" sample_patient))
    as (_ & Hc & Hh & Hn).
  destruct (Hc "age") as (e1 & _ & H1 & _); [simpl; auto|reflexivity|].
  destruct (Hh "age") as (e2 & _ & _ & _ & H2); [simpl; auto|reflexivity|].
  destruct (Hn "age") as (e3 & _ & H3 & _); [simpl; auto|reflexivity|].
  split; [exact H1|]. split; [|exact H3].
  reflexivity.
Defined.

(** C4, counterexample.  With the legacy cirrhosis artifacts on disk and
    a record without the patient's age, the cirrhosis entry of the
    results has risk_level "Unknown", not "Error", and no "error"
    entry; it is the predictor's own dictionary, not the composer's. *)
Lemma cirrhosis_error_entry_is_unknown :
  let results := Composer.disease_results full_environment (delete "age" sample_patient) in
  entry results "cirrhosis" "risk_level" = Some (RStr "Unknown") /\
  entry results "cirrhosis" "risk_level" <> Some (RStr "Error") /\
  entry results "cirrhosis" "error" = None /\
  entry results "cirrhosis" "model_type" = Some (RStr "Error Fallback") /\
  entry results "cirrhosis" "interpretation"
  = Some (RStr "Error in prediction: Missing required fields for Cirrhosis prediction: age").
Proof.
  vm_compute. repeat split; try reflexivity. discriminate.
Qed.

(** ** C8: the HCC artifact is absent *)

Lemma filter_none_of {A} (f : A -> bool) (l : list A) :
  forallb (fun x => negb (f x)) l = true -> List.filter f l = [].
Proof.
  induction l as [|x l IH]; simpl; [reflexivity|].
  intros H. apply andb_true_iff in H. destruct H as [Hx Hl].
  apply negb_true_iff in Hx. rewrite Hx. apply IH. exact Hl.
Qed.

(** With valid Child-Pugh inputs the block computes the score and the
    view goes on. *)
Lemma child_pugh_block_valid (patient_data : gmap string pyval) :
  child_pugh_inputs_valid patient_data = true ->
  forall scores : gmap string score,
  exists cp,
    Composer.child_pugh_block patient_data scores
    = Composer.Continues
        (Composer.with_child_pugh scores (SNum (IZR (ChildPugh.cp_score cp)))
           (SStr (ChildPugh.cp_class cp))) cp.
Proof.
  unfold child_pugh_inputs_valid. intros H scores.
  apply andb_true_iff in H. destruct H as [Hpresent Hpos].
  unfold Composer.child_pugh_block, Composer.missing_params.
  rewrite (filter_none_of _ _ Hpresent).
  simpl in Hpos.
  destruct (patient_data !! "albumin") as [[|a|]|] eqn:Ea; try discriminate.
  destruct (patient_data !! "total_bilirubin") as [[|b|]|] eqn:Eb;
    try (rewrite andb_false_r in Hpos; discriminate).
  destruct (patient_data !! "inr") as [[|i|]|] eqn:Ei;
    try (rewrite !andb_false_r in Hpos; discriminate).
  rewrite andb_true_r in Hpos.
  apply andb_true_iff in Hpos. destruct Hpos as [Ha Hpos].
  apply andb_true_iff in Hpos. destruct Hpos as [Hb Hi].
  apply negb_true_iff in Ha, Hb, Hi.
  unfold Composer.child_pugh_try, get. rewrite Ea, Eb, Ei.
  cbn [default from_option Datatypes.id py_float bind ok].
  rewrite Ha, Hb, Hi. cbn [orb].
  eexists. reflexivity.
Qed.

(** A missing model or scaler file stops the HCC predictor at once. *)
Lemma hcc_artifact_absent (fs : HCC.files) (data : gmap string pyval) :
  HCC.svm_best_model fs = Absent \/ HCC.hcc_scaler fs = Absent ->
  HCC.predict_hcc_risk fs data
  = HCC.error_result (PyExc PlainException "Model or scaler not loaded properly").
Proof.
  intros Habsent.
  unfold HCC.predict_hcc_risk, HCC.predict_risk, HCC.predict_risk_body, HCC.load_model.
  destruct Habsent as [-> | ->]; [reflexivity|].
  destruct (HCC.svm_best_model fs); reflexivity.
Qed.

Lemma translated_lookup (m : I18n.manager) (results : gmap string (gmap string rval))
  (disease : string) :
  Composer.translate_risk_levels m results !! disease
  = Composer.translate_entry m <$> results !! disease.
Proof. unfold Composer.translate_risk_levels. apply lookup_fmap. Qed.

Lemma translate_entry_known (m : I18n.manager) (result : gmap string rval)
  (original translated : string) :
  result !! "risk_level" = Some (RStr original) ->
  Composer.translation_map m !! original = Some translated ->
  Composer.translate_entry m result = <["risk_level" := RStr translated]> result.
Proof.
  intros H1 H2. unfold Composer.translate_entry. rewrite H1, H2. reflexivity.
Qed.

(** The translated HCC error dictionary. *)
Lemma translated_hcc_error (m : I18n.manager) (e : pyexc) :
  let shown := Composer.translate_entry m (HCC.error_result e) in
  shown !! "risk_level" = Some (RStr (I18n.t m "results.error")) /\
  shown !! "risk_color" = Some (RStr "secondary") /\
  shown !! "error" = Some (RStr (exc_msg e)).
Proof.
  intros shown. subst shown.
  rewrite (translate_entry_known m (HCC.error_result e) "Error" (I18n.t m "results.error"))
    by reflexivity.
  split; [apply lookup_insert_eq|].
  split; (rewrite lookup_insert_ne by discriminate; reflexivity).
Qed.

(** The view when the HCC artifact is absent and Child-Pugh can be
    computed. *)
Lemma hcc_absent_view (env : Composer.environment) (patient_data : gmap string pyval) :
  HCC.svm_best_model (Composer.hcc_files env) = Absent \/
  HCC.hcc_scaler (Composer.hcc_files env) = Absent ->
  child_pugh_inputs_valid patient_data = true ->
  exists a,
    Composer.calculate_risks env patient_data = Composer.Rendered a /\
    Composer.results a !! "hcc"
    = Some (Composer.translate_entry (Composer.i18n env)
              (HCC.error_result (PyExc PlainException "Model or scaler not loaded properly"))) /\
    Composer.results a !! "cirrhosis"
    = Some (Composer.translate_entry (Composer.i18n env)
              (Cirrhosis.predict_cirrhosis_risk (Composer.set_order env)
                 (Composer.cirrhosis_files env)
                 (Composer.select_fields Composer.cirrhosis_fields patient_data))) /\
    Composer.results a !! "nafld"
    = Some (Composer.translate_entry (Composer.i18n env)
              (NAFLD.predict_nafld_classification (Composer.nafld_catboost env)
                 (Composer.select_fields Composer.nafld_fields patient_data))).
Proof.
  intros Habsent Hvalid.
  unfold Composer.calculate_risks.
  destruct (child_pugh_block_valid patient_data Hvalid
              (TraditionalScores.calculate_traditional_scores patient_data)) as (cp & ->).
  eexists. split; [reflexivity|].
  cbn [Composer.results].
  destruct (disease_results_entries env patient_data) as (Hc & Hh & Hn).
  rewrite !translated_lookup, Hc, Hh, Hn.
  rewrite (hcc_artifact_absent _ _ Habsent).
  repeat split; reflexivity.
Qed.

(** C8 (as amended).  If the HCC model or scaler file is absent, and the
    five Child-Pugh inputs are present with positive albumin, bilirubin
    and INR, the assessment is rendered; its HCC entry is the HCC
    predictor's own error dictionary after translation, with risk_level
    the translation of "Error" (i18n key "results.error"), risk_color
    "secondary" and the message under "error"; the Cirrhosis and NAFLD
    entries are what those predictors return from their own artifacts
    and fields, whatever the HCC files are. *)
Theorem hcc_artifact_absent_is_contained
  (env : Composer.environment) (patient_data : gmap string pyval) :
  HCC.svm_best_model (Composer.hcc_files env) = Absent \/
  HCC.hcc_scaler (Composer.hcc_files env) = Absent ->
  child_pugh_inputs_valid patient_data = true ->
  exists a,
    Composer.calculate_risks env patient_data = Composer.Rendered a /\
    entry (Composer.results a) "hcc" "risk_level"
    = Some (RStr (I18n.t (Composer.i18n env) "results.error")) /\
    entry (Composer.results a) "hcc" "risk_color" = Some (RStr "secondary") /\
    entry (Composer.results a) "hcc" "error"
    = Some (RStr "Model or scaler not loaded properly") /\
    Composer.results a !! "cirrhosis"
    = Some (Composer.translate_entry (Composer.i18n env)
              (Cirrhosis.predict_cirrhosis_risk (Composer.set_order env)
                 (Composer.cirrhosis_files env)
                 (Composer.select_fields Composer.cirrhosis_fields patient_data))) /\
    Composer.results a !! "nafld"
    = Some (Composer.translate_entry (Composer.i18n env)
              (NAFLD.predict_nafld_classification (Composer.nafld_catboost env)
                 (Composer.select_fields Composer.nafld_fields patient_data))).
Proof.
  intros Habsent Hvalid.
  destruct (hcc_absent_view env patient_data Habsent Hvalid) as (a & Hview & Hh & Hc & Hn).
  exists a. split; [exact Hview|].
  destruct (translated_hcc_error (Composer.i18n env)
              (PyExc PlainException "Model or scaler not loaded properly")) as (H1 & H2 & H3).
  unfold entry. rewrite Hh. cbn [mbind option_bind].
  repeat split; assumption.
Qed.

(** The sample record with no HCC artifact on disk. *)
Lemma hcc_artifact_absent_is_contained_witness :
  exists a,
    Composer.calculate_risks sample_environment sample_patient = Composer.Rendered a /\
    entry (Composer.results a) "hcc" "risk_color" = Some (RStr "secondary").
Proof.
  destruct (hcc_artifact_absent_is_contained sample_environment sample_patient)
    as (a & Hview & _ & Hcolor & _).
  - left. reflexivity.
  - reflexivity.
  - exists a. split; assumption.
Defined.

(** C8, counterexample.  With no translation file loaded and no HCC
    artifact, the rendered HCC entry carries the risk_level
    "results.error" (the untranslated key path), not "Error". *)
Lemma hcc_error_level_is_translated :
  exists a,
    Composer.calculate_risks sample_environment sample_patient = Composer.Rendered a /\
    entry (Composer.results a) "hcc" "risk_level" = Some (RStr "results.error") /\
    entry (Composer.results a) "hcc" "risk_level" <> Some (RStr "Error").
Proof.
  destruct (hcc_absent_view sample_environment sample_patient) as (a & Hview & Hh & _).
  - left. reflexivity.
  - reflexivity.
  - exists a. split; [exact Hview|].
    unfold entry. rewrite Hh. cbn [mbind option_bind].
    split; [reflexivity|]. vm_compute. discriminate.
Qed.

(** ** C7: the HCC predictor with its trained classifier *)

(** One turn of the loop in [collect_features]. *)
Lemma collect_features_present (form col : string) (rest : list (string * string))
  (patient_data features : gmap string pyval) (missing_fields : list string) (value : pyval) :
  patient_data !! form = Some value -> String.eqb col "Trombosit" = false ->
  HCC.collect_features ((form, col) :: rest) patient_data features missing_fields
  = HCC.collect_features rest patient_data (<[col := value]> features) missing_fields.
Proof. intros H E. cbn [HCC.collect_features]. rewrite H, E. reflexivity. Qed.

Lemma collect_features_trombosit (form : string) (rest : list (string * string))
  (patient_data features : gmap string pyval) (missing_fields : list string) (q : Q) :
  patient_data !! form = Some (VNum q) ->
  HCC.collect_features ((form, "Trombosit") :: rest) patient_data features missing_fields
  = HCC.collect_features rest patient_data (<["Trombosit" := VNum (q * 1000)]> features)
      missing_fields.
Proof. intros H. cbn [HCC.collect_features]. rewrite H. reflexivity. Qed.

Lemma collect_features_optional (form col : string) (rest : list (string * string))
  (patient_data features : gmap string pyval) (missing_fields : list string) :
  absent_or_number patient_data form ->
  (String.eqb col "AFP" || String.eqb col "Obesity")%bool = true ->
  String.eqb col "Trombosit" = false ->
  HCC.collect_features ((form, col) :: rest) patient_data features missing_fields
  = HCC.collect_features rest patient_data
      (<[col := VNum (optional_or_zero patient_data form)]> features) missing_fields.
Proof.
  intros [H|[q H]] Eopt Etr; cbn [HCC.collect_features]; unfold optional_or_zero;
    rewrite H.
  - destruct (String.eqb col "AFP"); [reflexivity|].
    simpl in Eopt. rewrite Eopt. reflexivity.
  - rewrite Etr. reflexivity.
Qed.

(** The features collected from a record with all required fields. *)
Lemma collect_features_complete (patient_data : gmap string pyval)
  (age gender ast alt albumin creatinine inr trombosit total_bil dir_bil alp : Q) :
  patient_data !! "age" = Some (VNum age) ->
  patient_data !! "gender" = Some (VNum gender) ->
  patient_data !! "ast" = Some (VNum ast) ->
  patient_data !! "alt" = Some (VNum alt) ->
  patient_data !! "albumin" = Some (VNum albumin) ->
  patient_data !! "creatinine" = Some (VNum creatinine) ->
  patient_data !! "inr" = Some (VNum inr) ->
  patient_data !! "trombosit" = Some (VNum trombosit) ->
  patient_data !! "total_bilirubin" = Some (VNum total_bil) ->
  patient_data !! "direct_bilirubin" = Some (VNum dir_bil) ->
  patient_data !! "alp" = Some (VNum alp) ->
  absent_or_number patient_data "obesity" ->
  absent_or_number patient_data "afp" ->
  HCC.collect_features HCC.field_mapping patient_data ∅ []
  = ok (hcc_features age gender ast alt albumin creatinine inr (trombosit * 1000)
          total_bil dir_bil (optional_or_zero patient_data "obesity") alp
          (optional_or_zero patient_data "afp"), []).
Proof.
  intros Hage Hgender Hast Halt Halbumin Hcreat Hinr Hplt Htbil Hdbil Halp Hob Hafp.
  unfold HCC.field_mapping.
  rewrite (collect_features_present _ _ _ _ _ _ _ Hage) by reflexivity.
  rewrite (collect_features_present _ _ _ _ _ _ _ Hgender) by reflexivity.
  rewrite (collect_features_present _ _ _ _ _ _ _ Hast) by reflexivity.
  rewrite (collect_features_present _ _ _ _ _ _ _ Halt) by reflexivity.
  rewrite (collect_features_present _ _ _ _ _ _ _ Halbumin) by reflexivity.
  rewrite (collect_features_present _ _ _ _ _ _ _ Hcreat) by reflexivity.
  rewrite (collect_features_present _ _ _ _ _ _ _ Hinr) by reflexivity.
  rewrite (collect_features_trombosit _ _ _ _ _ _ Hplt).
  rewrite (collect_features_present _ _ _ _ _ _ _ Htbil) by reflexivity.
  rewrite (collect_features_present _ _ _ _ _ _ _ Hdbil) by reflexivity.
  rewrite (collect_features_optional _ _ _ _ _ _ Hob) by reflexivity.
  rewrite (collect_features_present _ _ _ _ _ _ _ Halp) by reflexivity.
  rewrite (collect_features_optional _ _ _ _ _ _ Hafp) by reflexivity.
  reflexivity.
Qed.

Section HccRow.
Variables (age gender ast alt albumin creatinine inr platelets total_bil dir_bil
             obesity alp afp : Q).

Lemma hcc_numerical_row :
  float_row
    (hcc_features age gender ast alt albumin creatinine inr platelets total_bil dir_bil
       obesity alp afp) HCC.numerical_cols
  = ok [age; ast; alt; albumin; creatinine; inr; platelets; total_bil; dir_bil; alp; afp].
Proof. reflexivity. Qed.

Lemma hcc_full_row :
  float_row
    (hcc_features age gender ast alt albumin creatinine inr platelets total_bil dir_bil
       obesity alp afp) HCC.all_feature_names
  = ok [age; gender; ast; alt; albumin; creatinine; inr; platelets; total_bil; dir_bil;
        obesity; alp; afp].
Proof. reflexivity. Qed.

Lemma hcc_preprocess (sc : transformer)
  (s_age s_ast s_alt s_albumin s_creatinine s_inr s_platelets s_total_bil s_dir_bil
     s_alp s_afp : Q) :
  sc [age; ast; alt; albumin; creatinine; inr; platelets; total_bil; dir_bil; alp; afp]
  = [s_age; s_ast; s_alt; s_albumin; s_creatinine; s_inr; s_platelets; s_total_bil;
     s_dir_bil; s_alp; s_afp] ->
  HCC.preprocess sc
    (hcc_features age gender ast alt albumin creatinine inr platelets total_bil dir_bil
       obesity alp afp)
  = ok [s_age; gender; s_ast; s_alt; s_albumin; s_creatinine; s_inr; s_platelets;
        s_total_bil; s_dir_bil; obesity; s_alp; s_afp].
Proof.
  intros Hsc. unfold HCC.preprocess. rewrite hcc_numerical_row.
  cbn [bind ok]. rewrite Hsc. reflexivity.
Qed.

End HccRow.

(** C7.  With the classifier and the scaler loaded, and a record whose
    eleven required fields are numbers (AFP and obesity absent or
    numbers), the HCC predictor returns risk_probability
    = 1 - P(class = 1), the classifier being applied to the row in
    which the numerical columns (platelets multiplied by 1000, AFP last)
    are replaced by the scaler's output and Gender and Obesity are passed
    as they are; an absent AFP or obesity counts as 0 and is not
    reported missing. *)
Theorem hcc_risk_probability
  (clf : classifier) (sc : transformer) (patient_data : gmap string pyval)
  (age gender ast alt albumin creatinine inr trombosit total_bil dir_bil alp : Q)
  (s_age s_ast s_alt s_albumin s_creatinine s_inr s_trombosit s_total_bil s_dir_bil
     s_alp s_afp : Q) :
  patient_data !! "age" = Some (VNum age) ->
  patient_data !! "gender" = Some (VNum gender) ->
  patient_data !! "ast" = Some (VNum ast) ->
  patient_data !! "alt" = Some (VNum alt) ->
  patient_data !! "albumin" = Some (VNum albumin) ->
  patient_data !! "creatinine" = Some (VNum creatinine) ->
  patient_data !! "inr" = Some (VNum inr) ->
  patient_data !! "trombosit" = Some (VNum trombosit) ->
  patient_data !! "total_bilirubin" = Some (VNum total_bil) ->
  patient_data !! "direct_bilirubin" = Some (VNum dir_bil) ->
  patient_data !! "alp" = Some (VNum alp) ->
  absent_or_number patient_data "obesity" ->
  absent_or_number patient_data "afp" ->
  let obesity := optional_or_zero patient_data "obesity" in
  let afp := optional_or_zero patient_data "afp" in
  sc [age; ast; alt; albumin; creatinine; inr; (trombosit * 1000)%Q; total_bil; dir_bil;
      alp; afp]
  = [s_age; s_ast; s_alt; s_albumin; s_creatinine; s_inr; s_trombosit; s_total_bil;
     s_dir_bil; s_alp; s_afp] ->
  let X_processed :=
    [s_age; gender; s_ast; s_alt; s_albumin; s_creatinine; s_inr; s_trombosit;
     s_total_bil; s_dir_bil; obesity; s_alp; s_afp] in
  let result := HCC.predict_risk {| HCC.model := Some clf; HCC.scaler := Some sc |}
                  patient_data in
  result !! "risk_probability" = Some (RNum (1 - snd (predict_proba clf X_processed))) /\
  result !! "model_type" = Some (RStr "SVM Trained Model (Standardized)") /\
  result !! "error" = None.
Proof.
  intros Hage Hgender Hast Halt Halbumin Hcreat Hinr Hplt Htbil Hdbil Halp Hob Hafp
    obesity afp Hsc X_processed result.
  subst result X_processed.
  unfold HCC.predict_risk, HCC.predict_risk_body. cbn [HCC.model HCC.scaler].
  rewrite (collect_features_complete patient_data age gender ast alt albumin creatinine
             inr trombosit total_bil dir_bil alp) by assumption.
  cbn [bind ok]. fold obesity afp.
  rewrite (hcc_preprocess _ _ _ _ _ _ _ _ _ _ _ _ _ sc _ _ _ _ _ _ _ _ _ _ _ Hsc).
  cbn [bind ok]. rewrite hcc_full_row. cbn [bind ok].
  destruct (risk_level_color _) as [risk_level risk_color].
  repeat split; reflexivity.
Qed.

(** The sample record, which has neither AFP nor obesity, with a scaler
    that halves every column. *)
Lemma hcc_risk_probability_witness :
  HCC.predict_risk {| HCC.model := Some constant_classifier;
                      HCC.scaler := Some halving_transformer |} sample_patient
  !! "risk_probability"
  = Some (RNum (1 - snd (predict_proba constant_classifier
                           [50 / 2; 1; 80 / 2; 100 / 2; 3.0 / 2; 1.2 / 2; 1.5 / 2;
                            150 * 1000 / 2; 2.0 / 2; 0.5 / 2; 0; 100 / 2; 0 / 2]%Q))).
Proof.
  apply (hcc_risk_probability constant_classifier halving_transformer sample_patient
           50 1 80 100 3.0 1.2 1.5 150 2.0 0.5 100
           (50 / 2) (80 / 2) (100 / 2) (3.0 / 2) (1.2 / 2) (1.5 / 2) (150 * 1000 / 2)
           (2.0 / 2) (0.5 / 2) (100 / 2) (0 / 2));
    try reflexivity.
  - left. reflexivity.
  - left. reflexivity.
Defined.

(** ** C3: the scores embedded in the cirrhosis result *)

(** One turn of the loop in [map_fields]. *)
Lemma map_fields_present (form col : string) (rest : list (string * string))
  (patient_data mapped : gmap string pyval) (missing_fields : list string) (value : pyval) :
  patient_data !! form = Some value ->
  map_fields ((form, col) :: rest) patient_data mapped missing_fields
  = map_fields rest patient_data (<[col := value]> mapped) missing_fields.
Proof. intros H. cbn [map_fields]. rewrite H. reflexivity. Qed.

Section CompleteRecord.
Variables (patient_data : gmap string pyval)
  (age gender ast alt platelets albumin bmi inr total_bil creatinine dir_bil alp : Q).
Hypothesis Hage : patient_data !! "age" = Some (VNum age).
Hypothesis Hgender : patient_data !! "gender" = Some (VNum gender).
Hypothesis Hast : patient_data !! "ast" = Some (VNum ast).
Hypothesis Halt : patient_data !! "alt" = Some (VNum alt).
Hypothesis Hplatelets : patient_data !! "trombosit" = Some (VNum platelets).
Hypothesis Halbumin : patient_data !! "albumin" = Some (VNum albumin).
Hypothesis Hbmi : patient_data !! "bmi" = Some (VNum bmi).
Hypothesis Hinr : patient_data !! "inr" = Some (VNum inr).
Hypothesis Htotal_bil : patient_data !! "total_bilirubin" = Some (VNum total_bil).
Hypothesis Hcreatinine : patient_data !! "creatinine" = Some (VNum creatinine).
Hypothesis Hdir_bil : patient_data !! "direct_bilirubin" = Some (VNum dir_bil).
Hypothesis Halp : patient_data !! "alp" = Some (VNum alp).

Lemma legacy_map_fields :
  map_fields Cirrhosis.legacy_field_mapping patient_data ∅ []
  = (legacy_mapped age gender ast alt platelets albumin bmi inr total_bil creatinine
       dir_bil alp, []).
Proof.
  unfold Cirrhosis.legacy_field_mapping.
  rewrite (map_fields_present _ _ _ _ _ _ _ Hage), (map_fields_present _ _ _ _ _ _ _ Hgender),
    (map_fields_present _ _ _ _ _ _ _ Hast), (map_fields_present _ _ _ _ _ _ _ Halt),
    (map_fields_present _ _ _ _ _ _ _ Hplatelets),
    (map_fields_present _ _ _ _ _ _ _ Halbumin), (map_fields_present _ _ _ _ _ _ _ Hbmi),
    (map_fields_present _ _ _ _ _ _ _ Hinr), (map_fields_present _ _ _ _ _ _ _ Htotal_bil),
    (map_fields_present _ _ _ _ _ _ _ Hcreatinine),
    (map_fields_present _ _ _ _ _ _ _ Hdir_bil), (map_fields_present _ _ _ _ _ _ _ Halp).
  reflexivity.
Qed.

(** The legacy predictor on a complete record stores the scores of
    [_calculate_traditional_scores] on the mapped numbers. *)
Lemma legacy_traditional_scores (order : list string -> list string)
  (model : classifier) (scaler imputer : transformer) :
  Cirrhosis.predict_risk order (Cirrhosis.Legacy model scaler imputer) patient_data
  !! "traditional_scores"
  = Some (RScores (Cirrhosis._calculate_traditional_scores
                     (legacy_numeric age gender ast alt platelets albumin bmi inr
                        total_bil creatinine dir_bil alp))).
Proof.
  unfold Cirrhosis.predict_risk, Cirrhosis.predict_risk_body.
  rewrite legacy_map_fields. unfold Cirrhosis.predict_with.
  replace (float_row _ Cirrhosis.legacy_feature_names)
    with (@ok (list Q) [age; gender; ast; alt; platelets; albumin; bmi; inr; total_bil;
                        creatinine; dir_bil; alp]) by reflexivity.
  cbn [bind ok].
  destruct (risk_level_color _) as [risk_level risk_color].
  reflexivity.
Qed.

Lemma complete_record_no_text : no_text patient_data = true.
Proof.
  unfold no_text, score_inputs, get. cbn [forallb].
  rewrite Hage, Hast, Halt, Hplatelets, Htotal_bil, Hinr, Hcreatinine, Hbmi.
  reflexivity.
Qed.

Lemma shared_fib4_value :
  (0 < age)%Q -> (0 < ast)%Q -> (0 < alt)%Q -> (0 < platelets)%Q ->
  TraditionalScores.calculate_traditional_scores patient_data !! "FIB-4"
  = Some (SNum (TraditionalScores.fib4 age ast alt platelets)).
Proof.
  intros H1 H2 H3 H4.
  destruct (shared_calculator_completes patient_data complete_record_no_text)
    as (v1 & v2 & v3 & v4 & E1 & _ & _ & _ & ->).
  rewrite !lookup_insert_ne by discriminate. rewrite lookup_insert_eq.
  unfold TraditionalScores.fib4_entry, get in E1.
  rewrite Hage, Hast, Halt, Hplatelets in E1.
  cbn [default from_option Datatypes.id all_present_positive] in E1.
  rewrite !present_positive_number in E1 by assumption.
  cbn [bind ok] in E1. injection E1 as <-. reflexivity.
Qed.

Lemma shared_apri_value :
  (0 < ast)%Q -> (0 < platelets)%Q ->
  TraditionalScores.calculate_traditional_scores patient_data !! "APRI"
  = Some (SNum (TraditionalScores.apri ast platelets)).
Proof.
  intros H2 H4.
  destruct (shared_calculator_completes patient_data complete_record_no_text)
    as (v1 & v2 & v3 & v4 & _ & E2 & _ & _ & ->).
  rewrite !lookup_insert_ne by discriminate. rewrite lookup_insert_eq.
  unfold TraditionalScores.apri_entry, get in E2.
  rewrite Hast, Hplatelets in E2.
  cbn [default from_option Datatypes.id all_present_positive] in E2.
  rewrite !present_positive_number in E2 by assumption.
  cbn [bind ok] in E2. injection E2 as <-. reflexivity.
Qed.

Lemma shared_meld_value :
  (0 < total_bil)%Q -> (0 < inr)%Q -> (0 < creatinine)%Q ->
  TraditionalScores.calculate_traditional_scores patient_data !! "MELD"
  = Some (SNum (TraditionalScores.meld total_bil inr creatinine)).
Proof.
  intros H1 H2 H3.
  destruct (shared_calculator_completes patient_data complete_record_no_text)
    as (v1 & v2 & v3 & v4 & _ & _ & E3 & _ & ->).
  rewrite !lookup_insert_ne by discriminate. rewrite lookup_insert_eq.
  unfold TraditionalScores.meld_entry, get in E3.
  rewrite Htotal_bil, Hinr, Hcreatinine in E3.
  cbn [default from_option Datatypes.id all_present_positive] in E3.
  rewrite !present_positive_number in E3 by assumption.
  cbn [bind ok] in E3. injection E3 as <-. reflexivity.
Qed.

End CompleteRecord.

(** The scores [_calculate_traditional_scores] stores for a legacy
    record with positive platelets and ALT. *)
Lemma legacy_embedded_scores
  (age gender ast alt platelets albumin bmi inr total_bil creatinine dir_bil alp : Q) :
  (0 < platelets)%Q -> (0 < alt)%Q ->
  let embedded :=
    Cirrhosis._calculate_traditional_scores
      (legacy_numeric age gender ast alt platelets albumin bmi inr total_bil creatinine
         dir_bil alp) in
  embedded !! "FIB-4"
  = Some (SNum (py_round (Q2R (age * ast) / (Q2R platelets * sqrt (Q2R alt))) 2)) /\
  embedded !! "APRI"
  = Some (SNum (py_round (Q2R ((ast / 40) / (platelets / 1000) * 100)) 2)) /\
  embedded !! "MELD"
  = Some (SNum (py_round (Cirrhosis.meld_clamped total_bil inr creatinine) 1)).
Proof.
  intros Hp Ha embedded. subst embedded.
  unfold Cirrhosis._calculate_traditional_scores.
  set (numeric := legacy_numeric _ _ _ _ _ _ _ _ _ _ _ _).
  change (numeric !! "Age") with (Some age).
  change (numeric !! "AST") with (Some ast).
  change (numeric !! "ALT") with (Some alt).
  change (numeric !! "Trombosit") with (Some platelets).
  change (numeric !! "INR") with (Some inr).
  change (numeric !! "Total Bilirubin") with (Some total_bil).
  change (numeric !! "Creatinine") with (Some creatinine).
  assert (Ep : gtb platelets 0 = true) by (apply gtb_true; exact Hp).
  assert (Ea : gtb alt 0 = true) by (apply gtb_true; exact Ha).
  cbn beta iota zeta. rewrite Ep, Ea. cbn [andb].
  split; [|split].
  - rewrite !lookup_insert_ne by discriminate. apply lookup_insert_eq.
  - rewrite !lookup_insert_ne by discriminate. apply lookup_insert_eq.
  - rewrite !lookup_insert_ne by discriminate. apply lookup_insert_eq.
Qed.

Lemma meld_clamped_above_one (total_bil inr creatinine : Q) :
  (1 <= total_bil)%Q -> (1 <= inr)%Q -> (1 <= creatinine)%Q ->
  Cirrhosis.meld_clamped total_bil inr creatinine
  = Rmax 6 (Rmin 40 (TraditionalScores.meld total_bil inr creatinine)).
Proof.
  intros Hb Hi Hc. unfold Cirrhosis.meld_clamped, TraditionalScores.meld.
  assert (E1 : (ltb total_bil 0 || ltb inr 0 || ltb creatinine 0)%bool = false).
  { apply orb_false_iff. split; [apply orb_false_iff; split|]; apply ltb_false; lra. }
  assert (E2 : (Qle_bool total_bil 0 || Qle_bool inr 0 || Qle_bool creatinine 0)%bool = false).
  { apply orb_false_iff. split; [apply orb_false_iff; split|]; apply Qle_bool_false; lra. }
  rewrite E1, E2. cbv zeta.
  rewrite (Qeq_eqR _ _ (Q.max_l total_bil 1 Hb)), (Qeq_eqR _ _ (Q.max_l inr 1 Hi)),
    (Qeq_eqR _ _ (Q.max_l creatinine 1 Hc)).
  reflexivity.
Qed.

(** C3 (as amended).  On the cirrhosis predictor's legacy-model path,
    for a record whose twelve fields are numbers with positive age, AST,
    ALT and platelets, the embedded FIB-4 is the shared calculator's
    FIB-4 rounded to two decimals, and, when bilirubin, INR and
    creatinine are at least 1, the embedded MELD is the shared
    calculator's MELD clamped to [6,40] and rounded to one decimal.  The
    embedded values are rounded (and clamped), so they are not in
    general numerically identical to the shared ones. *)
Theorem cirrhosis_embedded_scores_rounded
  (order : list string -> list string) (model : classifier) (scaler imputer : transformer)
  (patient_data : gmap string pyval)
  (age gender ast alt platelets albumin bmi inr total_bil creatinine dir_bil alp : Q) :
  patient_data !! "age" = Some (VNum age) ->
  patient_data !! "gender" = Some (VNum gender) ->
  patient_data !! "ast" = Some (VNum ast) ->
  patient_data !! "alt" = Some (VNum alt) ->
  patient_data !! "trombosit" = Some (VNum platelets) ->
  patient_data !! "albumin" = Some (VNum albumin) ->
  patient_data !! "bmi" = Some (VNum bmi) ->
  patient_data !! "inr" = Some (VNum inr) ->
  patient_data !! "total_bilirubin" = Some (VNum total_bil) ->
  patient_data !! "creatinine" = Some (VNum creatinine) ->
  patient_data !! "direct_bilirubin" = Some (VNum dir_bil) ->
  patient_data !! "alp" = Some (VNum alp) ->
  (0 < age)%Q -> (0 < ast)%Q -> (0 < alt)%Q -> (0 < platelets)%Q ->
  let shared := TraditionalScores.calculate_traditional_scores patient_data in
  exists embedded x,
    Cirrhosis.predict_risk order (Cirrhosis.Legacy model scaler imputer) patient_data
    !! "traditional_scores" = Some (RScores embedded) /\
    shared !! "FIB-4" = Some (SNum x) /\
    embedded !! "FIB-4" = Some (SNum (py_round x 2)) /\
    ((1 <= total_bil)%Q -> (1 <= inr)%Q -> (1 <= creatinine)%Q ->
     exists m,
       shared !! "MELD" = Some (SNum m) /\
       embedded !! "MELD" = Some (SNum (py_round (Rmax 6 (Rmin 40 m)) 1))).
Proof.
  intros Hage Hgender Hast Halt Hplt Halbumin Hbmi Hinr Htbil Hcreat Hdbil Halp
    Page Past Palt Pplt shared.
  destruct (legacy_embedded_scores age gender ast alt platelets albumin bmi inr total_bil
              creatinine dir_bil alp Pplt Palt) as (Efib & _ & Emeld).
  eexists. exists (TraditionalScores.fib4 age ast alt platelets).
  split; [eapply legacy_traditional_scores; eassumption|].
  split; [eapply shared_fib4_value; eassumption|].
  split; [exact Efib|].
  intros Hb Hi Hc. exists (TraditionalScores.meld total_bil inr creatinine). split.
  - eapply shared_meld_value; try eassumption; lra.
  - rewrite Emeld. rewrite meld_clamped_above_one by assumption. reflexivity.
Qed.

(** The sample record on the legacy path. *)
Lemma cirrhosis_embedded_scores_rounded_witness :
  exists embedded x,
    Cirrhosis.predict_risk (fun fields => fields) sample_legacy sample_patient
    !! "traditional_scores" = Some (RScores embedded) /\
    TraditionalScores.calculate_traditional_scores sample_patient !! "FIB-4" = Some (SNum x) /\
    embedded !! "FIB-4" = Some (SNum (py_round x 2)).
Proof.
  destruct (cirrhosis_embedded_scores_rounded (fun fields => fields) constant_classifier
              identity_transformer identity_transformer sample_patient
              50 1 80 100 150 3.0 25.0 1.5 2.0 1.2 0.5 100)
    as (embedded & x & H1 & H2 & H3 & _); try reflexivity.
  exists embedded, x. repeat split; assumption.
Defined.

(** A rounded value is a whole number of units of the last decimal. *)
Lemma py_round_scaled (x : R) (ndigits : nat) :
  exists z, (py_round x ndigits * 10 ^ ndigits)%R = IZR z.
Proof.
  exists (round_half_even (x * 10 ^ ndigits)). unfold py_round.
  assert (H : (10 ^ ndigits <> 0)%R) by (apply pow_nonzero; lra).
  field. exact H.
Qed.

Lemma Q2R_whole (z : Z) : Q2R (inject_Z z) = IZR z.
Proof. unfold Q2R. simpl. lra. Qed.

Lemma sample_fib4_value : TraditionalScores.fib4 50 80 100 150 = (8 / 3)%R.
Proof.
  unfold TraditionalScores.fib4.
  assert (E1 : Q2R (50 * 80) = 4000%R)
    by (rewrite (Qeq_eqR _ (inject_Z 4000)) by reflexivity; apply Q2R_whole).
  assert (E2 : Q2R 150 = 150%R) by (unfold Q2R; simpl; lra).
  assert (E3 : Q2R 100 = (10 * 10)%R) by (unfold Q2R; simpl; lra).
  rewrite E1, E2, E3. rewrite sqrt_square by lra. field.
Qed.

Lemma sample_apri_value : TraditionalScores.apri 80 150 = (4 / 3)%R.
Proof.
  unfold TraditionalScores.apri.
  rewrite (Qeq_eqR _ (4 # 3)) by reflexivity. unfold Q2R. simpl. lra.
Qed.

(** C3, counterexample.  On the legacy path, for age 50, AST 80, ALT 100
    and platelets 150, the embedded FIB-4 and APRI both differ from the
    shared calculator's: the shared FIB-4 is 8/3 and the shared APRI is
    4/3, neither of which is a two-decimal number. *)
Lemma cirrhosis_scores_differ_from_shared :
  exists embedded fib4_embedded fib4_shared apri_embedded apri_shared,
    Cirrhosis.predict_risk (fun fields => fields) sample_legacy sample_patient
    !! "traditional_scores" = Some (RScores embedded) /\
    embedded !! "FIB-4" = Some (SNum fib4_embedded) /\
    TraditionalScores.calculate_traditional_scores sample_patient !! "FIB-4"
    = Some (SNum fib4_shared) /\
    fib4_embedded <> fib4_shared /\
    embedded !! "APRI" = Some (SNum apri_embedded) /\
    TraditionalScores.calculate_traditional_scores sample_patient !! "APRI"
    = Some (SNum apri_shared) /\
    apri_embedded <> apri_shared.
Proof.
  destruct (legacy_embedded_scores 50 1 80 100 150 3.0 25.0 1.5 2.0 1.2 0.5 100)
    as (Efib & Eapri & _); try reflexivity.
  eexists. eexists. eexists. eexists. eexists.
  split; [apply (legacy_traditional_scores sample_patient
                   50 1 80 100 150 3.0 25.0 1.5 2.0 1.2 0.5 100); reflexivity|].
  split; [exact Efib|].
  split; [apply (shared_fib4_value sample_patient 50 80 100 150 25.0 1.5 2.0 1.2);
          reflexivity|].
  split.
  { change (Q2R (50 * 80) / (Q2R 150 * sqrt (Q2R 100)))%R
      with (TraditionalScores.fib4 50 80 100 150).
    rewrite sample_fib4_value.
    destruct (py_round_scaled (8 / 3) 2) as (z & Hz). intros Heq. rewrite Heq in Hz.
    assert (H : IZR (3 * z) = IZR 800) by (rewrite mult_IZR; simpl in Hz; lra).
    apply eq_IZR in H. lia. }
  split; [exact Eapri|].
  split; [apply (shared_apri_value sample_patient 50 80 100 150 25.0 1.5 2.0 1.2);
          reflexivity|].
  rewrite sample_apri_value.
  destruct (py_round_scaled (Q2R (80 / 40 / (150 / 1000) * 100)) 2) as (z & Hz).
  intros Heq. rewrite Heq in Hz.
  assert (H : IZR (3 * z) = IZR 400) by (rewrite mult_IZR; simpl in Hz; lra).
  apply eq_IZR in H. lia.
Qed.
